(** * pkg/resources/k8sgpt.go: desired objects of a K8sGPT instance and
      their reconciliation against the cluster.

    The Go file builds five Kubernetes objects from a [K8sGPT]
    configuration and either applies them ([SyncOp]) or deletes them
    ([DestroyOp]).  The builders are pure and are embedded as functions;
    [Sync] and [doSync] talk to the cluster and are embedded as programs
    over the calls they issue ([Prog]), run against an arbitrary cluster
    ([Handler]). *)

From Stdlib Require Import String List Bool ZArith Lia.
Import ListNotations.
Open Scope string_scope.
Open Scope list_scope.

Set Implicit Arguments.

(** ** Go errors *)

(** Reasons carried by a cluster API status error
    (k8s.io/apimachinery/pkg/apis/meta/v1). *)
Inductive StatusReason :=
| StatusReasonUnknown
| StatusReasonUnauthorized
| StatusReasonForbidden
| StatusReasonNotFound
| StatusReasonAlreadyExists
| StatusReasonConflict
| StatusReasonInvalid
| StatusReasonServerTimeout
| StatusReasonInternalError.

(** A non-nil Go [error]: either a value made by the standard [errors.New]
    or a status error of the cluster API.  A Go [error] that may be nil is
    an [option error]. *)
Inductive error :=
| errorString (s : string)
| StatusError (reason : StatusReason) (message : string).

(** errors.New of the standard library (imported as [err]). *)
Definition err_New (s : string) : error := errorString s.

(** The classifiers of k8s.io/apimachinery/pkg/api/errors. *)
Definition IsNotFound (e : error) : bool :=
  match e with StatusError StatusReasonNotFound _ => true | _ => false end.

Definition IsAlreadyExists (e : error) : bool :=
  match e with StatusError StatusReasonAlreadyExists _ => true | _ => false end.

Definition IsConflict (e : error) : bool :=
  match e with StatusError StatusReasonConflict _ => true | _ => false end.

(** ** Kubernetes API objects, with the fields this file reads or writes *)

Record OwnerReference := {
  OwnerReference_APIVersion : string;
  OwnerReference_Kind : string;
  OwnerReference_Name : string;
  OwnerReference_UID : string;
  OwnerReference_Controller : option bool;
  OwnerReference_BlockOwnerDeletion : option bool
}.

Record ObjectMeta := {
  ObjectMeta_Name : string;
  ObjectMeta_Namespace : string;
  ObjectMeta_ResourceVersion : string;
  ObjectMeta_Labels : list (string * string);
  ObjectMeta_OwnerReferences : list OwnerReference
}.

Definition ObjectMeta_zero : ObjectMeta :=
  {| ObjectMeta_Name := ""; ObjectMeta_Namespace := "";
     ObjectMeta_ResourceVersion := ""; ObjectMeta_Labels := [];
     ObjectMeta_OwnerReferences := [] |}.

(** types.NamespacedName, also the type of client.ObjectKey. *)
Record NamespacedName := {
  NamespacedName_Namespace : string;
  NamespacedName_Name : string
}.

(** *** core/v1 Service and ServiceAccount *)

Record ServicePort := { ServicePort_Port : Z }.

Record ServiceSpec := {
  ServiceSpec_Selector : list (string * string);
  ServiceSpec_Ports : list ServicePort
}.

Record ServiceStatus := { ServiceStatus_LoadBalancerIngress : list string }.

Record Service := {
  Service_ObjectMeta : ObjectMeta;
  Service_Spec : ServiceSpec;
  Service_Status : ServiceStatus
}.

Record ServiceAccount := { ServiceAccount_ObjectMeta : ObjectMeta }.

Record Secret := {
  Secret_ObjectMeta : ObjectMeta;
  Secret_Data : list (string * string)
}.

(** *** rbac/v1 *)

Record Subject := {
  Subject_Kind : string;
  Subject_Name : string;
  Subject_Namespace : string
}.

Record RoleRef := {
  RoleRef_APIGroup : string;
  RoleRef_Kind : string;
  RoleRef_Name : string
}.

Record ClusterRoleBinding := {
  ClusterRoleBinding_ObjectMeta : ObjectMeta;
  ClusterRoleBinding_Subjects : list Subject;
  ClusterRoleBinding_RoleRef : RoleRef
}.

Record PolicyRule := {
  PolicyRule_Verbs : list string;
  PolicyRule_APIGroups : list string;
  PolicyRule_Resources : list string
}.

Record ClusterRole := {
  ClusterRole_ObjectMeta : ObjectMeta;
  ClusterRole_Rules : list PolicyRule
}.

(** *** apps/v1 Deployment and the pod template under it *)

Record LocalObjectReference := { LocalObjectReference_Name : string }.

Record SecretKeySelector := {
  SecretKeySelector_LocalObjectReference : LocalObjectReference;
  SecretKeySelector_Key : string
}.

Record EnvVarSource := { EnvVarSource_SecretKeyRef : option SecretKeySelector }.

Record EnvVar := {
  EnvVar_Name : string;
  EnvVar_Value : string;
  EnvVar_ValueFrom : option EnvVarSource
}.

Record ContainerPort := { ContainerPort_ContainerPort : Z }.

Inductive ResourceName := ResourceCPU | ResourceMemory.

(** resource.MustParse keeps the quantity it is given; the quantities of
    this file are the four literals below, kept as written. *)
Definition MustParse (s : string) : string := s.

Record ResourceRequirements := {
  ResourceRequirements_Limits : list (ResourceName * string);
  ResourceRequirements_Requests : list (ResourceName * string)
}.

Record VolumeMount := {
  VolumeMount_Name : string;
  VolumeMount_MountPath : string
}.

Inductive PullPolicy := PullAlways | PullNever | PullIfNotPresent.

Record Container := {
  Container_Name : string;
  Container_Image : string;
  Container_Args : list string;
  Container_Ports : list ContainerPort;
  Container_Env : list EnvVar;
  Container_Resources : ResourceRequirements;
  Container_VolumeMounts : list VolumeMount;
  Container_ImagePullPolicy : option PullPolicy
}.

Record EmptyDirVolumeSource := { EmptyDirVolumeSource_Medium : string }.

Record VolumeSource := { VolumeSource_EmptyDir : option EmptyDirVolumeSource }.

Record Volume := {
  Volume_Name : string;
  Volume_VolumeSource : VolumeSource
}.

Record PodSpec := {
  PodSpec_Volumes : list Volume;
  PodSpec_Containers : list Container;
  PodSpec_ServiceAccountName : string
}.

Record PodTemplateSpec := {
  PodTemplateSpec_ObjectMeta : ObjectMeta;
  PodTemplateSpec_Spec : PodSpec
}.

Record LabelSelector := { LabelSelector_MatchLabels : list (string * string) }.

Record DeploymentSpec := {
  DeploymentSpec_Replicas : option Z;
  DeploymentSpec_Selector : option LabelSelector;
  DeploymentSpec_Template : PodTemplateSpec
}.

Record DeploymentStatus := {
  DeploymentStatus_ObservedGeneration : Z;
  DeploymentStatus_Replicas : Z;
  DeploymentStatus_ReadyReplicas : Z
}.

Record Deployment := {
  Deployment_ObjectMeta : ObjectMeta;
  Deployment_Spec : DeploymentSpec;
  Deployment_Status : DeploymentStatus
}.

(** The Go zero value [appsv1.Deployment{}]. *)
Definition Deployment_zero : Deployment :=
  {| Deployment_ObjectMeta := ObjectMeta_zero;
     Deployment_Spec :=
       {| DeploymentSpec_Replicas := None;
          DeploymentSpec_Selector := None;
          DeploymentSpec_Template :=
            {| PodTemplateSpec_ObjectMeta := ObjectMeta_zero;
               PodTemplateSpec_Spec :=
                 {| PodSpec_Volumes := [];
                    PodSpec_Containers := [];
                    PodSpec_ServiceAccountName := "" |} |} |};
     Deployment_Status :=
       {| DeploymentStatus_ObservedGeneration := 0;
          DeploymentStatus_Replicas := 0;
          DeploymentStatus_ReadyReplicas := 0 |} |}.

(** ** The configuration, api/v1alpha1.K8sGPT

    Its declaration is outside this file; the records below carry the
    fields that k8sgpt.go reads, under the names it reads them by.  The two
    remote-cache backends are only tested against nil, and [Credentials] is
    read through [.Name] without a nil test. *)

Record SecretRef := {
  SecretRef_Name : string;
  SecretRef_Key : string
}.

Record AISpec := {
  AISpec_Backend : string;
  AISpec_BaseUrl : string;
  AISpec_Model : string;
  AISpec_Engine : string;
  AISpec_Secret : option SecretRef
}.

Record CredentialsRef := { CredentialsRef_Name : string }.

Inductive AzureBackend := mkAzureBackend.
Inductive S3Backend := mkS3Backend.

Record RemoteCacheRef := {
  RemoteCacheRef_Credentials : CredentialsRef;
  RemoteCacheRef_S3 : option S3Backend;
  RemoteCacheRef_Azure : option AzureBackend
}.

Record K8sGPTSpec := {
  K8sGPTSpec_Repository : string;
  K8sGPTSpec_Version : string;
  K8sGPTSpec_AI : AISpec;
  K8sGPTSpec_RemoteCache : option RemoteCacheRef
}.

Record K8sGPT := {
  K8sGPT_Kind : string;
  K8sGPT_APIVersion : string;
  K8sGPT_Name : string;
  K8sGPT_Namespace : string;
  K8sGPT_UID : string;
  K8sGPT_Spec : K8sGPTSpec
}.

(** ** Constants *)

(** SyncOrDestroy enum create or destroy.  The Go type is an [int] with
    these two constants; [Sync] is modelled on the two constants. *)
Inductive SyncOrDestroy := SyncOp | DestroyOp.

Definition DeploymentName : string := "k8sgpt-deployment".

(** utils.PtrBool: a pointer to the given boolean. *)
Definition PtrBool (b : bool) : option bool := Some b.

(** ** Resource builders *)

(** [deployment.Spec.Template.Spec.Containers[0].Env = append(..Env, e)].
    The deployment literal of [GetDeployment] has exactly one container,
    so index 0 is always in range where the source uses it. *)
Definition Container_appendEnv (c : Container) (e : EnvVar) : Container :=
  {| Container_Name := Container_Name c;
     Container_Image := Container_Image c;
     Container_Args := Container_Args c;
     Container_Ports := Container_Ports c;
     Container_Env := Container_Env c ++ [e];
     Container_Resources := Container_Resources c;
     Container_VolumeMounts := Container_VolumeMounts c;
     Container_ImagePullPolicy := Container_ImagePullPolicy c |}.

Definition PodSpec_setContainers (p : PodSpec) (cs : list Container) : PodSpec :=
  {| PodSpec_Volumes := PodSpec_Volumes p;
     PodSpec_Containers := cs;
     PodSpec_ServiceAccountName := PodSpec_ServiceAccountName p |}.

Definition Deployment_setContainers (d : Deployment) (cs : list Container)
  : Deployment :=
  {| Deployment_ObjectMeta := Deployment_ObjectMeta d;
     Deployment_Spec :=
       {| DeploymentSpec_Replicas := DeploymentSpec_Replicas (Deployment_Spec d);
          DeploymentSpec_Selector := DeploymentSpec_Selector (Deployment_Spec d);
          DeploymentSpec_Template :=
            {| PodTemplateSpec_ObjectMeta :=
                 PodTemplateSpec_ObjectMeta
                   (DeploymentSpec_Template (Deployment_Spec d));
               PodTemplateSpec_Spec :=
                 PodSpec_setContainers
                   (PodTemplateSpec_Spec
                      (DeploymentSpec_Template (Deployment_Spec d))) cs |} |};
     Deployment_Status := Deployment_Status d |}.

Definition Deployment_Containers (d : Deployment) : list Container :=
  PodSpec_Containers
    (PodTemplateSpec_Spec (DeploymentSpec_Template (Deployment_Spec d))).

Definition appendEnv0 (d : Deployment) (e : EnvVar) : Deployment :=
  match Deployment_Containers d with
  | c :: cs => Deployment_setContainers d (Container_appendEnv c e :: cs)
  | [] => d
  end.

(** The environment of every container of a deployment, in order. *)
Definition Deployment_Env (d : Deployment) : list EnvVar :=
  flat_map Container_Env (Deployment_Containers d).

(** GetService Create service for K8sGPT *)
Definition GetService (config : K8sGPT) : Service * option error :=
  let service :=
    {| Service_ObjectMeta :=
         {| ObjectMeta_Name := "k8sgpt";
            ObjectMeta_Namespace := K8sGPT_Namespace config;
            ObjectMeta_ResourceVersion := "";
            ObjectMeta_Labels := [];
            ObjectMeta_OwnerReferences :=
              [ {| OwnerReference_Kind := K8sGPT_Kind config;
                   OwnerReference_Name := K8sGPT_Name config;
                   OwnerReference_UID := K8sGPT_UID config;
                   OwnerReference_APIVersion := K8sGPT_APIVersion config;
                   OwnerReference_BlockOwnerDeletion := PtrBool true;
                   OwnerReference_Controller := PtrBool true |} ] |};
       Service_Spec :=
         {| ServiceSpec_Selector := [("app", DeploymentName)];
            ServiceSpec_Ports := [ {| ServicePort_Port := 8080 |} ] |};
       Service_Status := {| ServiceStatus_LoadBalancerIngress := [] |} |} in
  (service, None).

(** GetServiceAccount Create Service Account for K8sGPT and bind it to
    K8sGPT role *)
Definition GetServiceAccount (config : K8sGPT) : ServiceAccount * option error :=
  let serviceAccount :=
    {| ServiceAccount_ObjectMeta :=
         {| ObjectMeta_Name := "k8sgpt";
            ObjectMeta_Namespace := K8sGPT_Namespace config;
            ObjectMeta_ResourceVersion := "";
            ObjectMeta_Labels := [];
            ObjectMeta_OwnerReferences :=
              [ {| OwnerReference_Kind := K8sGPT_Kind config;
                   OwnerReference_Name := K8sGPT_Name config;
                   OwnerReference_UID := K8sGPT_UID config;
                   OwnerReference_APIVersion := K8sGPT_APIVersion config;
                   OwnerReference_BlockOwnerDeletion := PtrBool true;
                   OwnerReference_Controller := PtrBool true |} ] |} |} in
  (serviceAccount, None).

(** GetClusterRoleBinding Create cluster role binding for K8sGPT *)
Definition GetClusterRoleBinding (config : K8sGPT)
  : ClusterRoleBinding * option error :=
  let clusterRoleBinding :=
    {| ClusterRoleBinding_ObjectMeta :=
         {| ObjectMeta_Name := "k8sgpt";
            ObjectMeta_Namespace := "";
            ObjectMeta_ResourceVersion := "";
            ObjectMeta_Labels := [];
            ObjectMeta_OwnerReferences :=
              [ {| OwnerReference_Kind := K8sGPT_Kind config;
                   OwnerReference_Name := K8sGPT_Name config;
                   OwnerReference_UID := K8sGPT_UID config;
                   OwnerReference_APIVersion := K8sGPT_APIVersion config;
                   OwnerReference_BlockOwnerDeletion := PtrBool true;
                   OwnerReference_Controller := PtrBool true |} ] |};
       ClusterRoleBinding_Subjects :=
         [ {| Subject_Kind := "ServiceAccount";
              Subject_Name := "k8sgpt";
              Subject_Namespace := K8sGPT_Namespace config |} ];
       ClusterRoleBinding_RoleRef :=
         {| RoleRef_Kind := "ClusterRole";
            RoleRef_Name := "k8sgpt";
            RoleRef_APIGroup := "rbac.authorization.k8s.io" |} |} in
  (clusterRoleBinding, None).

(** GetClusterRole Create ClusterRole for K8sGPT with cluster read all *)
Definition GetClusterRole (config : K8sGPT) : ClusterRole * option error :=
  let clusterRole :=
    {| ClusterRole_ObjectMeta :=
         {| ObjectMeta_Name := "k8sgpt";
            ObjectMeta_Namespace := "";
            ObjectMeta_ResourceVersion := "";
            ObjectMeta_Labels := [];
            ObjectMeta_OwnerReferences :=
              [ {| OwnerReference_Kind := K8sGPT_Kind config;
                   OwnerReference_Name := K8sGPT_Name config;
                   OwnerReference_UID := K8sGPT_UID config;
                   OwnerReference_APIVersion := K8sGPT_APIVersion config;
                   OwnerReference_BlockOwnerDeletion := PtrBool true;
                   OwnerReference_Controller := PtrBool true |} ] |};
       ClusterRole_Rules :=
         [ {| PolicyRule_APIGroups := ["*"];
              PolicyRule_Resources := ["*"];
              PolicyRule_Verbs := ["create"; "list"; "get"; "watch"; "delete"] |};
           {| PolicyRule_APIGroups := ["apiextensions.k8s.io"];
              PolicyRule_Resources := ["*"];
              PolicyRule_Verbs := ["*"] |} ] |} in
  (clusterRole, None).

(** The closure [addRemoteCacheEnvVar] of [GetDeployment]: a variable
    [name] read from key [key] of the remote-cache credentials secret. *)
Definition remoteCacheEnvVar (rc : RemoteCacheRef) (name key : string) : EnvVar :=
  {| EnvVar_Name := name;
     EnvVar_Value := "";
     EnvVar_ValueFrom :=
       Some {| EnvVarSource_SecretKeyRef :=
                 Some {| SecretKeySelector_LocalObjectReference :=
                           {| LocalObjectReference_Name :=
                                CredentialsRef_Name (RemoteCacheRef_Credentials rc) |};
                         SecretKeySelector_Key := key |} |} |}.

Section Resources.

(** The constant v1alpha1.AzureOpenAI, declared outside this file. *)
Variable AzureOpenAI : string.

(** The deployment literal of [GetDeployment], before the conditional
    environment variables are appended. *)
Definition GetDeployment_literal (config : K8sGPT) : Deployment :=
  let image := (K8sGPTSpec_Repository (K8sGPT_Spec config) ++ ":"
                ++ K8sGPTSpec_Version (K8sGPT_Spec config))%string in
  let replicas := 1%Z in
  {| Deployment_ObjectMeta :=
       {| ObjectMeta_Name := DeploymentName;
          ObjectMeta_Namespace := K8sGPT_Namespace config;
          ObjectMeta_ResourceVersion := "";
          ObjectMeta_Labels := [];
          ObjectMeta_OwnerReferences :=
            [ {| OwnerReference_Kind := K8sGPT_Kind config;
                 OwnerReference_Name := K8sGPT_Name config;
                 OwnerReference_UID := K8sGPT_UID config;
                 OwnerReference_APIVersion := K8sGPT_APIVersion config;
                 OwnerReference_BlockOwnerDeletion := PtrBool true;
                 OwnerReference_Controller := PtrBool true |} ] |};
     Deployment_Spec :=
       {| DeploymentSpec_Replicas := Some replicas;
          DeploymentSpec_Selector :=
            Some {| LabelSelector_MatchLabels := [("app", DeploymentName)] |};
          DeploymentSpec_Template :=
            {| PodTemplateSpec_ObjectMeta :=
                 {| ObjectMeta_Name := "";
                    ObjectMeta_Namespace := "";
                    ObjectMeta_ResourceVersion := "";
                    ObjectMeta_Labels := [("app", DeploymentName)];
                    ObjectMeta_OwnerReferences := [] |};
               PodTemplateSpec_Spec :=
                 {| PodSpec_ServiceAccountName := "k8sgpt";
                    PodSpec_Containers :=
                      [ {| Container_Name := "k8sgpt";
                           Container_ImagePullPolicy := Some PullAlways;
                           Container_Image := image;
                           Container_Args := ["serve"];
                           Container_Env :=
                             [ {| EnvVar_Name := "K8SGPT_MODEL";
                                  EnvVar_Value :=
                                    AISpec_Model (K8sGPTSpec_AI (K8sGPT_Spec config));
                                  EnvVar_ValueFrom := None |};
                               {| EnvVar_Name := "K8SGPT_BACKEND";
                                  EnvVar_Value :=
                                    AISpec_Backend (K8sGPTSpec_AI (K8sGPT_Spec config));
                                  EnvVar_ValueFrom := None |};
                               {| EnvVar_Name := "XDG_CONFIG_HOME";
                                  EnvVar_Value := "/k8sgpt-data/.config";
                                  EnvVar_ValueFrom := None |};
                               {| EnvVar_Name := "XDG_CACHE_HOME";
                                  EnvVar_Value := "/k8sgpt-data/.cache";
                                  EnvVar_ValueFrom := None |} ];
                           Container_Ports :=
                             [ {| ContainerPort_ContainerPort := 8080 |} ];
                           Container_Resources :=
                             {| ResourceRequirements_Limits :=
                                  [ (ResourceCPU, MustParse "1");
                                    (ResourceMemory, MustParse "512Mi") ];
                                ResourceRequirements_Requests :=
                                  [ (ResourceCPU, MustParse "0.2");
                                    (ResourceMemory, MustParse "156Mi") ] |};
                           Container_VolumeMounts :=
                             [ {| VolumeMount_MountPath := "/k8sgpt-data";
                                  VolumeMount_Name := "k8sgpt-vol" |} ] |} ];
                    PodSpec_Volumes :=
                      [ {| Volume_VolumeSource :=
                             {| VolumeSource_EmptyDir :=
                                  Some {| EmptyDirVolumeSource_Medium := "" |} |};
                           Volume_Name := "k8sgpt-vol" |} ] |} |} |};
     Deployment_Status := Deployment_Status Deployment_zero |}.

(** GetDeployment Create deployment with the latest K8sGPT image *)
Definition GetDeployment (config : K8sGPT) : Deployment * option error :=
  let AI := K8sGPTSpec_AI (K8sGPT_Spec config) in
  let deployment := GetDeployment_literal config in
  let deployment :=
    match AISpec_Secret AI with
    | Some secret =>
        let password :=
          {| EnvVar_Name := "K8SGPT_PASSWORD";
             EnvVar_Value := "";
             EnvVar_ValueFrom :=
               Some {| EnvVarSource_SecretKeyRef :=
                         Some {| SecretKeySelector_LocalObjectReference :=
                                   {| LocalObjectReference_Name :=
                                        SecretRef_Name secret |};
                                 SecretKeySelector_Key := SecretRef_Key secret |} |} |} in
        appendEnv0 deployment password
    | None => deployment
    end in
  let deployment :=
    match K8sGPTSpec_RemoteCache (K8sGPT_Spec config) with
    | Some RemoteCache =>
        let addRemoteCacheEnvVar d name key :=
          appendEnv0 d (remoteCacheEnvVar RemoteCache name key) in
        match RemoteCacheRef_Azure RemoteCache with
        | Some _ =>
            let d := addRemoteCacheEnvVar deployment "AZURE_CLIENT_ID" "azure_client_id" in
            let d := addRemoteCacheEnvVar d "AZURE_TENANT_ID" "azure_tenant_id" in
            addRemoteCacheEnvVar d "AZURE_CLIENT_SECRET" "azure_client_secret"
        | None =>
            match RemoteCacheRef_S3 RemoteCache with
            | Some _ =>
                let d := addRemoteCacheEnvVar deployment "AWS_ACCESS_KEY_ID" "aws_access_key_id" in
                addRemoteCacheEnvVar d "AWS_SECRET_ACCESS_KEY" "aws_secret_access_key"
            | None => deployment
            end
        end
    | None => deployment
    end in
  let deployment :=
    if negb (AISpec_BaseUrl AI =? "") then
      let baseUrl :=
        {| EnvVar_Name := "K8SGPT_BASEURL";
           EnvVar_Value := AISpec_BaseUrl AI;
           EnvVar_ValueFrom := None |} in
      appendEnv0 deployment baseUrl
    else deployment in
  (* Engine is required only when azureopenai is the ai backend *)
  if negb (AISpec_Engine AI =? "") && (AISpec_Backend AI =? AzureOpenAI) then
    let engine :=
      {| EnvVar_Name := "K8SGPT_ENGINE";
         EnvVar_Value := AISpec_Engine AI;
         EnvVar_ValueFrom := None |} in
    (appendEnv0 deployment engine, None)
  else if negb (AISpec_Engine AI =? "") && negb (AISpec_Backend AI =? AzureOpenAI) then
    (Deployment_zero,
     Some (err_New "Engine is supported only by azureopenai provider."))
  else (deployment, None).

End Resources.

(** ** The cluster client

    [client.Client] is an interface; the cluster behind it is outside the
    program.  A call is an [Event] whose index is the type of its answer,
    a function that talks to the cluster is a [Prog] (a finite tree of
    calls), and a cluster is a [Handler] that answers every call from a
    state of its own. *)

(** context.Context: the background context, or one derived by the caller. *)
Inductive Context :=
| context_Background
| context_Derived (id : nat).

(** The concrete types behind the [client.Object] values of this file. *)
Inductive Kind :=
| KService | KServiceAccount | KClusterRole | KClusterRoleBinding
| KDeployment | KSecret.

Definition KindType (k : Kind) : Type :=
  match k with
  | KService => Service
  | KServiceAccount => ServiceAccount
  | KClusterRole => ClusterRole
  | KClusterRoleBinding => ClusterRoleBinding
  | KDeployment => Deployment
  | KSecret => Secret
  end.

(** A [client.Object]: a pointer to an API object of some kind. *)
Record Object := mkObject {
  Object_kind : Kind;
  Object_value : KindType Object_kind
}.

Arguments mkObject : clear implicits.

Definition GetObjectMeta (k : Kind) : KindType k -> ObjectMeta :=
  match k return KindType k -> ObjectMeta with
  | KService => Service_ObjectMeta
  | KServiceAccount => ServiceAccount_ObjectMeta
  | KClusterRole => ClusterRole_ObjectMeta
  | KClusterRoleBinding => ClusterRoleBinding_ObjectMeta
  | KDeployment => Deployment_ObjectMeta
  | KSecret => Secret_ObjectMeta
  end.

(** client.ObjectKeyFromObject *)
Definition ObjectKeyFromObject (obj : Object) : NamespacedName :=
  {| NamespacedName_Namespace :=
       ObjectMeta_Namespace (GetObjectMeta _ (Object_value obj));
     NamespacedName_Name :=
       ObjectMeta_Name (GetObjectMeta _ (Object_value obj)) |}.

(** controllerutil.MutateFn: a [func() error] that updates the object it
    closes over; here a function of that object's current content. *)
Definition MutateFn (k : Kind) : Type := KindType k -> KindType k * option error.

(** The calls this file issues.  [Get] reads into a typed object and answers
    an error or the content read; [CreateOrPatch] is
    controllerutil.CreateOrPatch, whose body is outside this file and is
    taken as one call against the cluster. *)
Inductive Event : Type -> Type :=
| Get (ctx : Context) (k : Kind) (key : NamespacedName)
    : Event (error + KindType k)
| Delete (ctx : Context) (obj : Object) : Event (option error)
| CreateOrPatch (ctx : Context) (k : Kind) (obj : KindType k)
    (f : option (MutateFn k)) : Event (option error).

Arguments CreateOrPatch : clear implicits.

Inductive Prog (A : Type) : Type :=
| Ret (a : A)
| Vis (X : Type) (e : Event X) (k : X -> Prog A).

Arguments Ret {A} a.
Arguments Vis {A X} e k.

Fixpoint bind {A B : Type} (p : Prog A) (f : A -> Prog B) : Prog B :=
  match p with
  | Ret a => f a
  | Vis e k => Vis e (fun x => bind (k x) f)
  end.

Definition trigger {X : Type} (e : Event X) : Prog X := Vis e Ret.

Declare Scope prog_scope.
Delimit Scope prog_scope with prog.
Notation "x <- p ;; q" := (bind p (fun x => q))
  (at level 61, p at next level, right associativity) : prog_scope.
Open Scope prog_scope.

(** One call and the answer it got. *)
Record Entry := mkEntry {
  Entry_type : Type;
  Entry_event : Event Entry_type;
  Entry_answer : Entry_type
}.

Definition Handler (W : Type) : Type := forall X : Type, Event X -> W -> X * W.

(** Running a program against a cluster: the result, the cluster's final
    state and the calls made, in order. *)
Fixpoint run {W A : Type} (h : Handler W) (p : Prog A) (w : W)
  : A * W * list Entry :=
  match p with
  | Ret a => (a, w, [])
  | Vis e k =>
      let (x, w1) := h _ e w in
      let '(a, w2, tr) := run h (k x) w1 in
      (a, w2, mkEntry e x :: tr)
  end.

(** Observations on a logged call. *)
Definition Event_ctx {X : Type} (e : Event X) : Context :=
  match e with
  | Get ctx _ _ => ctx
  | Delete ctx _ => ctx
  | CreateOrPatch ctx _ _ _ => ctx
  end.

Definition isCreateOrPatch (en : Entry) : bool :=
  match Entry_event en with CreateOrPatch _ _ _ _ => true | _ => false end.

Definition isDelete (en : Entry) : bool :=
  match Entry_event en with Delete _ _ => true | _ => false end.

Definition isGetOf (k : Kind) (en : Entry) : bool :=
  match Entry_event en with
  | Get _ k' _ =>
      match k, k' with
      | KService, KService | KServiceAccount, KServiceAccount
      | KClusterRole, KClusterRole
      | KClusterRoleBinding, KClusterRoleBinding
      | KDeployment, KDeployment | KSecret, KSecret => true
      | _, _ => false
      end
  | _ => false
  end.

(** The answer of a logged [CreateOrPatch] call, if the call is one. *)
Definition createOrPatchAnswer (en : Entry) : option (option error) :=
  match Entry_event en in Event X return X -> option (option error) with
  | CreateOrPatch _ _ _ _ => fun r => Some r
  | _ => fun _ => None
  end (Entry_answer en).

Fixpoint createOrPatchAnswers (tr : list Entry) : list (option error) :=
  match tr with
  | [] => []
  | en :: tr' =>
      match createOrPatchAnswer en with
      | Some r => r :: createOrPatchAnswers tr'
      | None => createOrPatchAnswers tr'
      end
  end.

(** ** k8s.io/client-go/util/retry *)

(** wait.Backoff, with the fields that bound the number of attempts.  The
    pause between two attempts is real time and is not modelled. *)
Record Backoff := {
  Backoff_Duration_ms : Z;
  Backoff_Steps : nat
}.

(** Modelled from the spec: retry.DefaultRetry belongs to the client
    library, which is not part of this repository's sources.  The spec calls
    it the default backoff policy of a bounded retry loop; the library
    publishes it as five steps of ten milliseconds. *)
Definition DefaultRetry : Backoff :=
  {| Backoff_Duration_ms := 10; Backoff_Steps := 5 |}.

(** Modelled from the spec: retry.OnError, the loop behind
    retry.RetryOnConflict, belongs to the client library.  "A bounded retry
    loop that retries only on [retriable] errors; other errors propagate
    without retry", and when the budget is spent the last retriable error
    is surfaced.  [steps] is the number of attempts left and [lastErr] the
    error of the previous attempt. *)
Fixpoint OnError (steps : nat) (retriable : error -> bool)
  (fn : Prog (option error)) (lastErr : option error) : Prog (option error) :=
  match steps with
  | O => Ret lastErr
  | S steps' =>
      err <- fn ;;
      match err with
      | None => Ret None
      | Some e =>
          if retriable e then OnError steps' retriable fn (Some e)
          else Ret (Some e)
      end
  end.

(** Modelled from the spec: retry.RetryOnConflict retries [fn] while it
    answers an optimistic-concurrency conflict, within the budget of
    [backoff]. *)
Definition RetryOnConflict (backoff : Backoff) (fn : Prog (option error))
  : Prog (option error) :=
  OnError (Backoff_Steps backoff) IsConflict fn None.

(** ** Reconcile one object *)

Definition Deployment_setSpec (d : Deployment) (spec : DeploymentSpec)
  : Deployment :=
  {| Deployment_ObjectMeta := Deployment_ObjectMeta d;
     Deployment_Spec := spec;
     Deployment_Status := Deployment_Status d |}.

Definition Service_setSpec (s : Service) (spec : ServiceSpec) : Service :=
  {| Service_ObjectMeta := Service_ObjectMeta s;
     Service_Spec := spec;
     Service_Status := Service_Status s |}.

(** What the type switch of [doSync] leaves in [obj] and [mutateFn]. *)
Record Target (k : Kind) := mkTarget {
  Target_obj : KindType k;
  Target_mutateFn : option (MutateFn k)
}.

Arguments mkTarget : clear implicits.

(** The type switch of [doSync]: for a Deployment or a Service the existing
    object is read with [context.Background()]; any error but not-found is
    returned, and when the object exists [obj] becomes the existing object
    and [mutateFn] copies the expected spec into it. *)
Definition doSync_switch (k : Kind) : KindType k -> Prog (error + Target k) :=
  match k return KindType k -> Prog (error + Target k) with
  | KDeployment => fun expect =>
      r <- trigger (Get context_Background KDeployment
                      (ObjectKeyFromObject (mkObject KDeployment expect))) ;;
      match r with
      | inl err =>
          if negb (IsNotFound err) then Ret (inl err)
          else Ret (inr (mkTarget KDeployment expect None))
      | inr exist' =>
          let mutateFn : MutateFn KDeployment := fun exist' =>
            (Deployment_setSpec exist' (Deployment_Spec expect), None) in
          Ret (inr (mkTarget KDeployment exist' (Some mutateFn)))
      end
  | KService => fun expect =>
      r <- trigger (Get context_Background KService
                      (ObjectKeyFromObject (mkObject KService expect))) ;;
      match r with
      | inl err =>
          if negb (IsNotFound err) then Ret (inl err)
          else Ret (inr (mkTarget KService expect None))
      | inr exist' =>
          let mutateFn : MutateFn KService := fun exist' =>
            (Service_setSpec exist' (Service_Spec expect), None) in
          Ret (inr (mkTarget KService exist' (Some mutateFn)))
      end
  | KServiceAccount => fun expect => Ret (inr (mkTarget KServiceAccount expect None))
  | KClusterRole => fun expect => Ret (inr (mkTarget KClusterRole expect None))
  | KClusterRoleBinding => fun expect =>
      Ret (inr (mkTarget KClusterRoleBinding expect None))
  | KSecret => fun expect => Ret (inr (mkTarget KSecret expect None))
  end.

Definition doSync (ctx : Context) (obj : Object) : Prog (option error) :=
  r <- doSync_switch (Object_kind obj) (Object_value obj) ;;
  match r with
  | inl err => Ret (Some err)
  | inr t =>
      RetryOnConflict DefaultRetry
        (trigger (CreateOrPatch ctx (Object_kind obj)
                    (Target_obj t) (Target_mutateFn t)))
  end.

(** ** The orchestrator *)

Definition secretMissing : error :=
  err_New "references secret does not exist, cannot create deployment".

(** The check that opens the [SyncOp] case: when the configuration
    references a secret, read it from the configuration's namespace. *)
Definition Sync_checkSecret (ctx : Context) (config : K8sGPT)
  : Prog (option error) :=
  match AISpec_Secret (K8sGPTSpec_AI (K8sGPT_Spec config)) with
  | Some Secret =>
      er <- trigger (Get ctx KSecret
                       {| NamespacedName_Name := SecretRef_Name Secret;
                          NamespacedName_Namespace := K8sGPT_Namespace config |}) ;;
      match er with
      | inl _ => Ret (Some secretMissing)
      | inr _ => Ret None
      end
  | None => Ret None
  end.

(** The body of the loop of [Sync] for one object: [Some e] when [Sync]
    returns [e] there, [None] when the loop goes on. *)
Definition Sync_body (ctx : Context) (config : K8sGPT) (i : SyncOrDestroy)
  (obj : Object) : Prog (option error) :=
  match i with
  | SyncOp =>
      er <- Sync_checkSecret ctx config ;;
      match er with
      | Some er => Ret (Some er)
      | None =>
          err <- doSync ctx obj ;;
          match err with
          | Some err =>
              (* If the object already exists, ignore the error *)
              if negb (IsAlreadyExists err) then Ret (Some err) else Ret None
          | None => Ret None
          end
      end
  | DestroyOp =>
      err <- trigger (Delete ctx obj) ;;
      match err with
      | Some err =>
          (* if the object is not found, ignore the error *)
          if negb (IsNotFound err) then Ret (Some err) else Ret None
      | None => Ret None
      end
  end.

Fixpoint Sync_loop (ctx : Context) (config : K8sGPT) (i : SyncOrDestroy)
  (objs : list Object) : Prog (option error) :=
  match objs with
  | [] => Ret None
  | obj :: rest =>
      r <- Sync_body ctx config i obj ;;
      match r with
      | Some e => Ret (Some e)
      | None => Sync_loop ctx config i rest
      end
  end.

Section Orchestrator.

Variable AzureOpenAI : string.

Definition Sync (ctx : Context) (config : K8sGPT) (i : SyncOrDestroy)
  : Prog (option error) :=
  let objs : list Object := [] in
  let (svc, er) := GetService config in
  match er with Some er => Ret (Some er) | None =>
  let objs := (objs ++ [mkObject KService svc]) in
  let (svcAcc, er) := GetServiceAccount config in
  match er with Some er => Ret (Some er) | None =>
  let objs := (objs ++ [mkObject KServiceAccount svcAcc]) in
  let (clusterRole, er) := GetClusterRole config in
  match er with Some er => Ret (Some er) | None =>
  let objs := (objs ++ [mkObject KClusterRole clusterRole]) in
  let (clusterRoleBinding, er) := GetClusterRoleBinding config in
  match er with Some er => Ret (Some er) | None =>
  let objs := (objs ++ [mkObject KClusterRoleBinding clusterRoleBinding]) in
  let (deployment, er) := GetDeployment AzureOpenAI config in
  match er with Some er => Ret (Some er) | None =>
  let objs := (objs ++ [mkObject KDeployment deployment]) in
  (* for each object, create or destroy *)
  Sync_loop ctx config i objs
  end end end end end.

End Orchestrator.

(** ** Statements about the builders *)

(** The single owner reference of [m] names [config] and is a controller
    reference that blocks the owner's deletion. *)
Definition ownedBy (config : K8sGPT) (m : ObjectMeta) : Prop :=
  exists r,
    ObjectMeta_OwnerReferences m = [r] /\
    OwnerReference_Kind r = K8sGPT_Kind config /\
    OwnerReference_Name r = K8sGPT_Name config /\
    OwnerReference_UID r = K8sGPT_UID config /\
    OwnerReference_APIVersion r = K8sGPT_APIVersion config /\
    OwnerReference_Controller r = Some true /\
    OwnerReference_BlockOwnerDeletion r = Some true.


Definition azureCredentials (rc : RemoteCacheRef) : list EnvVar :=
  [ remoteCacheEnvVar rc "AZURE_CLIENT_ID" "azure_client_id";
    remoteCacheEnvVar rc "AZURE_TENANT_ID" "azure_tenant_id";
    remoteCacheEnvVar rc "AZURE_CLIENT_SECRET" "azure_client_secret" ].

Definition awsCredentials (rc : RemoteCacheRef) : list EnvVar :=
  [ remoteCacheEnvVar rc "AWS_ACCESS_KEY_ID" "aws_access_key_id";
    remoteCacheEnvVar rc "AWS_SECRET_ACCESS_KEY" "aws_secret_access_key" ].

(** ** Concrete configurations and clusters *)

Definition azureopenai : string := "azureopenai".

Definition exampleConfig (backend engine : string) (secret : option SecretRef)
  (remoteCache : option RemoteCacheRef) : K8sGPT :=
  {| K8sGPT_Kind := "K8sGPT";
     K8sGPT_APIVersion := "core.k8sgpt.ai/v1alpha1";
     K8sGPT_Name := "k8sgpt-sample";
     K8sGPT_Namespace := "default";
     K8sGPT_UID := "0f1e2d3c";
     K8sGPT_Spec :=
       {| K8sGPTSpec_Repository := "ghcr.io/k8sgpt-ai/k8sgpt";
          K8sGPTSpec_Version := "v0.3.8";
          K8sGPTSpec_AI :=
            {| AISpec_Backend := backend;
               AISpec_BaseUrl := "";
               AISpec_Model := "gpt-3.5-turbo";
               AISpec_Engine := engine;
               AISpec_Secret := secret |};
          K8sGPTSpec_RemoteCache := remoteCache |} |}.

Definition exampleSecret : SecretRef :=
  {| SecretRef_Name := "k8sgpt-sample-secret"; SecretRef_Key := "openai-api-key" |}.

Definition exampleRemoteCache (s3 : option S3Backend) (azure : option AzureBackend)
  : RemoteCacheRef :=
  {| RemoteCacheRef_Credentials := {| CredentialsRef_Name := "cache-credentials" |};
     RemoteCacheRef_S3 := s3;
     RemoteCacheRef_Azure := azure |}.

(** Go zero values, for the content a [Get] reads when the test cluster
    below has the object. *)
Definition zeroValue (k : Kind) : KindType k :=
  match k return KindType k with
  | KService =>
      {| Service_ObjectMeta := ObjectMeta_zero;
         Service_Spec := {| ServiceSpec_Selector := []; ServiceSpec_Ports := [] |};
         Service_Status := {| ServiceStatus_LoadBalancerIngress := [] |} |}
  | KServiceAccount => {| ServiceAccount_ObjectMeta := ObjectMeta_zero |}
  | KClusterRole =>
      {| ClusterRole_ObjectMeta := ObjectMeta_zero; ClusterRole_Rules := [] |}
  | KClusterRoleBinding =>
      {| ClusterRoleBinding_ObjectMeta := ObjectMeta_zero;
         ClusterRoleBinding_Subjects := [];
         ClusterRoleBinding_RoleRef :=
           {| RoleRef_APIGroup := ""; RoleRef_Kind := ""; RoleRef_Name := "" |} |}
  | KDeployment => Deployment_zero
  | KSecret => {| Secret_ObjectMeta := ObjectMeta_zero; Secret_Data := [] |}
  end.

(** A test cluster whose state is the number of calls answered so far:
    [getErr k n] is the error of a [Get] of kind [k] as call number [n]
    (none: the object is read), [applyErr n] and [deleteErr n] the answers
    of [CreateOrPatch] and [Delete]. *)
Definition scripted (getErr : Kind -> nat -> option error)
  (applyErr deleteErr : nat -> option error) : Handler nat :=
  fun X e n =>
    match e in Event X return X * nat with
    | Get _ k _ =>
        (match getErr k n with
         | Some er => inl er
         | None => inr (zeroValue k)
         end, S n)
    | Delete _ _ => (deleteErr n, S n)
    | CreateOrPatch _ _ _ _ => (applyErr n, S n)
    end.

Definition notFound : error := StatusError StatusReasonNotFound "not found".
Definition alreadyExists : error :=
  StatusError StatusReasonAlreadyExists "already exists".
Definition conflict : error :=
  StatusError StatusReasonConflict "the object has been modified".
Definition forbidden : error := StatusError StatusReasonForbidden "forbidden".

(** A cluster where nothing exists yet and every write succeeds. *)
Definition emptyCluster : Handler nat :=
  scripted (fun _ _ => Some notFound) (fun _ => None) (fun _ => Some notFound).

(** A cluster where every object exists and every write succeeds. *)
Definition fullCluster : Handler nat :=
  scripted (fun _ _ => None) (fun _ => None) (fun _ => None).


(** A cluster where every read answers not-found and every write answers
    that the object already exists, as when another pass is creating the
    same objects. *)
Definition racingCluster : Handler nat :=
  scripted (fun _ _ => Some notFound) (fun _ => Some alreadyExists)
           (fun _ => Some notFound).

(** A cluster where nothing exists and every write is refused. *)
Definition forbiddenCluster : Handler nat :=
  scripted (fun _ _ => Some notFound) (fun _ => Some forbidden)
           (fun _ => Some forbidden).

(** A cluster where nothing exists and every write answers a conflict. *)
Definition alwaysConflictCluster : Handler nat :=
  scripted (fun _ _ => Some notFound) (fun _ => Some conflict) (fun _ => None).

(** An engine under a backend other than AzureOpenAI. *)
Definition engineOnOpenAI : K8sGPT :=
  exampleConfig "openai" "gpt-35-turbo" None None.


(** The configurations, context and objects the claims are tried on. *)
Definition plainConfig : K8sGPT := exampleConfig "openai" "" None None.

Definition secretConfig : K8sGPT :=
  exampleConfig "openai" "" (Some exampleSecret) None.

Definition callerCtx : Context := context_Derived 1.

Definition plainService : Object :=
  mkObject KService (fst (GetService plainConfig)).

Definition plainDeployment : Deployment :=
  fst (GetDeployment azureopenai plainConfig).

(** A configuration that uses every optional setting [GetDeployment]
    accepts together: a secret, an S3 remote cache and an engine under the
    AzureOpenAI backend. *)
Definition richConfig : K8sGPT :=
  exampleConfig azureopenai "gpt-35-turbo" (Some exampleSecret)
    (Some (exampleRemoteCache (Some mkS3Backend) None)).

(** A cluster whose reads are refused. *)
Definition unreadableCluster : Handler nat :=
  scripted (fun _ _ => Some forbidden) (fun _ => None) (fun _ => None).

(** ** Statements about the reconciliation *)

Definition Entry_ctx (en : Entry) : Context := Event_ctx (Entry_event en).

(** The slice [objs] of [Sync] once every builder has returned. *)
Definition builtObjects (AzureOpenAI : string) (config : K8sGPT) : list Object :=
  [ mkObject KService (fst (GetService config));
    mkObject KServiceAccount (fst (GetServiceAccount config));
    mkObject KClusterRole (fst (GetClusterRole config));
    mkObject KClusterRoleBinding (fst (GetClusterRoleBinding config));
    mkObject KDeployment (fst (GetDeployment AzureOpenAI config)) ].

(** The answers [rs] that a retry loop with [steps] attempts left can get
    from the cluster, and the error [res] it then returns: an attempt is
    followed by another one exactly when it answered a conflict and the
    budget is not spent. *)
Fixpoint attempts (steps : nat) (lastErr : option error)
  (rs : list (option error)) (res : option error) : Prop :=
  match steps with
  | O => rs = [] /\ res = lastErr
  | S steps' =>
      match rs with
      | [] => False
      | None :: rs' => rs' = [] /\ res = None
      | Some e :: rs' =>
          if IsConflict e then attempts steps' (Some e) rs' res
          else rs' = [] /\ res = Some e
      end
  end.

(** ** Statements about what the builders and a pass produce *)

(** The four variables of the deployment literal. *)
Definition fixedEnv (config : K8sGPT) : list EnvVar :=
  [ {| EnvVar_Name := "K8SGPT_MODEL";
       EnvVar_Value := AISpec_Model (K8sGPTSpec_AI (K8sGPT_Spec config));
       EnvVar_ValueFrom := None |};
    {| EnvVar_Name := "K8SGPT_BACKEND";
       EnvVar_Value := AISpec_Backend (K8sGPTSpec_AI (K8sGPT_Spec config));
       EnvVar_ValueFrom := None |};
    {| EnvVar_Name := "XDG_CONFIG_HOME";
       EnvVar_Value := "/k8sgpt-data/.config";
       EnvVar_ValueFrom := None |};
    {| EnvVar_Name := "XDG_CACHE_HOME";
       EnvVar_Value := "/k8sgpt-data/.cache";
       EnvVar_ValueFrom := None |} ].

(** K8SGPT_PASSWORD, read from the key of the referenced secret. *)
Definition passwordVar (secret : SecretRef) : EnvVar :=
  {| EnvVar_Name := "K8SGPT_PASSWORD";
     EnvVar_Value := "";
     EnvVar_ValueFrom :=
       Some {| EnvVarSource_SecretKeyRef :=
                 Some {| SecretKeySelector_LocalObjectReference :=
                           {| LocalObjectReference_Name := SecretRef_Name secret |};
                         SecretKeySelector_Key := SecretRef_Key secret |} |} |}.

(** The credential variables of a remote-cache block: Azure first. *)
Definition remoteCacheEnv (remoteCache : option RemoteCacheRef) : list EnvVar :=
  match remoteCache with
  | Some rc =>
      match RemoteCacheRef_Azure rc, RemoteCacheRef_S3 rc with
      | Some _, _ => azureCredentials rc
      | None, Some _ => awsCredentials rc
      | None, None => []
      end
  | None => []
  end.

(** The context and object of a logged [Delete] call. *)
Definition deleteTarget (en : Entry) : option (Context * Object) :=
  match Entry_event en with
  | Delete ctx obj => Some (ctx, obj)
  | _ => None
  end.

(** The kinds of the objects of the logged [CreateOrPatch] calls. *)
Fixpoint createOrPatchKinds (tr : list Entry) : list Kind :=
  match tr with
  | [] => []
  | en :: tr' =>
      match Entry_event en with
      | CreateOrPatch _ k _ _ => k :: createOrPatchKinds tr'
      | _ => createOrPatchKinds tr'
      end
  end.

(** The error a logged call was answered with, if any. *)
Definition entryError (en : Entry) : option error :=
  match Entry_event en in Event X return X -> option error with
  | Get _ _ _ => fun r => match r with inl e => Some e | inr _ => None end
  | Delete _ _ => fun r => r
  | CreateOrPatch _ _ _ _ => fun r => r
  end (Entry_answer en).

(** How a pass that returned [e] ended: on its last call [en], which either
    was answered [e] or, in synchronize mode, was the read of the secret
    that failed (the pass then returns the fixed message). *)
Definition endsWith (i : SyncOrDestroy) (e : error) (tr : list Entry) : Prop :=
  exists (tr' : list Entry) (en : Entry),
    tr = tr' ++ [en] /\
    (entryError en = Some e \/
     (i = SyncOp /\ isGetOf KSecret en = true /\ entryError en <> None /\
      e = secretMissing)).

(** A logged [CreateOrPatch] of kind [k] with the context [ctx]. *)
Definition applyCall (ctx : Context) (k : Kind) (en : Entry) : Prop :=
  match Entry_event en with
  | CreateOrPatch c k' _ _ => c = ctx /\ k' = k
  | _ => False
  end.

(** The calls a synchronize pass over [objs] may issue: the read of the
    referenced secret with the caller's context, the read of a Service or
    a Deployment of [objs] with the background context, and a
    [CreateOrPatch] with the caller's context; never a [Delete]. *)
Definition syncCall (ctx : Context) (config : K8sGPT) (objs : list Object)
  (en : Entry) : Prop :=
  match Entry_event en with
  | Get c k key =>
      (k = KSecret /\ c = ctx /\
       exists s, AISpec_Secret (K8sGPTSpec_AI (K8sGPT_Spec config)) = Some s /\
                 key = {| NamespacedName_Name := SecretRef_Name s;
                          NamespacedName_Namespace := K8sGPT_Namespace config |})
      \/
      (c = context_Background /\ (k = KService \/ k = KDeployment) /\
       exists obj, In obj objs /\ Object_kind obj = k /\
                   key = ObjectKeyFromObject obj)
  | Delete _ _ => False
  | CreateOrPatch c k _ _ =>
      c = ctx /\ exists obj, In obj objs /\ Object_kind obj = k
  end.

(** The most calls one turn of the synchronize loop can issue for [obj]:
    the secret read, the read of the existing object for a Service or a
    Deployment, and the attempts of the default backoff. *)
Definition callBudget (obj : Object) : nat :=
  1 + match Object_kind obj with
      | KService | KDeployment => 1
      | _ => 0
      end
    + Backoff_Steps DefaultRetry.

(** ** Facts about the builders *)

Ltac break_config config :=
  let backend := fresh "backend" in
  let baseUrl := fresh "baseUrl" in
  let model := fresh "model" in
  let engine := fresh "engine" in
  let secret := fresh "secret" in
  let remoteCache := fresh "remoteCache" in
  destruct config as [? ? ? ? ? [? ? [backend baseUrl model engine secret] remoteCache]];
  cbn [K8sGPT_Spec K8sGPTSpec_AI K8sGPTSpec_RemoteCache AISpec_Backend
       AISpec_BaseUrl AISpec_Model AISpec_Engine AISpec_Secret
       K8sGPT_Kind K8sGPT_Name K8sGPT_Namespace K8sGPT_UID K8sGPT_APIVersion] in *.

Ltac break_remoteCache :=
  match goal with
  | remoteCache : option RemoteCacheRef |- _ =>
      let s3 := fresh "s3" in
      let azure := fresh "azure" in
      destruct remoteCache as [[? s3 azure]|];
      [destruct azure; [|destruct s3]|]
  end.

Section BuilderFacts.

Variable AzureOpenAI : string.

Lemma GetDeployment_error_iff (config : K8sGPT) :
  snd (GetDeployment AzureOpenAI config) <> None <->
  (AISpec_Engine (K8sGPTSpec_AI (K8sGPT_Spec config)) <> "" /\
   AISpec_Backend (K8sGPTSpec_AI (K8sGPT_Spec config)) <> AzureOpenAI).
Proof.
  unfold GetDeployment.
  destruct (String.eqb_spec (AISpec_Engine (K8sGPTSpec_AI (K8sGPT_Spec config))) "");
    destruct (String.eqb_spec (AISpec_Backend (K8sGPTSpec_AI (K8sGPT_Spec config)))
                AzureOpenAI);
    cbn [negb andb snd]; split; intros; try tauto; try discriminate;
    intuition congruence.
Qed.

(** C1.  With a non-empty engine: under the AzureOpenAI backend
    [GetDeployment] returns no error and the environment of the container
    has the entry K8SGPT_ENGINE with the configured engine as its value;
    under any other backend it returns an error and the empty Deployment. *)
Theorem GetDeployment_engine (config : K8sGPT) :
  AISpec_Engine (K8sGPTSpec_AI (K8sGPT_Spec config)) <> "" ->
  (AISpec_Backend (K8sGPTSpec_AI (K8sGPT_Spec config)) = AzureOpenAI ->
   snd (GetDeployment AzureOpenAI config) = None /\
   In {| EnvVar_Name := "K8SGPT_ENGINE";
         EnvVar_Value := AISpec_Engine (K8sGPTSpec_AI (K8sGPT_Spec config));
         EnvVar_ValueFrom := None |}
      (Deployment_Env (fst (GetDeployment AzureOpenAI config)))) /\
  (AISpec_Backend (K8sGPTSpec_AI (K8sGPT_Spec config)) <> AzureOpenAI ->
   exists e, GetDeployment AzureOpenAI config = (Deployment_zero, Some e)).
Proof.
  intros Hengine. apply String.eqb_neq in Hengine.
  unfold GetDeployment. rewrite Hengine. cbn [negb andb].
  split; intros Hbackend.
  - apply String.eqb_eq in Hbackend. rewrite Hbackend.
    break_config config. split; [reflexivity|].
    destruct secret; break_remoteCache; destruct (baseUrl =? "");
      cbn; rewrite ?app_nil_r; repeat (try (left; reflexivity); right).
  - apply String.eqb_neq in Hbackend. rewrite Hbackend. cbn [negb].
    eexists. reflexivity.
Qed.

Lemma appendEnv0_ObjectMeta (d : Deployment) (e : EnvVar) :
  Deployment_ObjectMeta (appendEnv0 d e) = Deployment_ObjectMeta d.
Proof.
  unfold appendEnv0. destruct (Deployment_Containers d); reflexivity.
Qed.

Lemma GetDeployment_ObjectMeta (config : K8sGPT) :
  snd (GetDeployment AzureOpenAI config) = None ->
  Deployment_ObjectMeta (fst (GetDeployment AzureOpenAI config)) =
  Deployment_ObjectMeta (GetDeployment_literal config).
Proof.
  break_config config. unfold GetDeployment.
  cbn [K8sGPT_Spec K8sGPTSpec_AI K8sGPTSpec_RemoteCache AISpec_Backend
       AISpec_BaseUrl AISpec_Model AISpec_Engine AISpec_Secret].
  destruct (engine =? ""); destruct (backend =? AzureOpenAI);
    cbn [negb andb fst snd]; intros Hok; try discriminate Hok; clear Hok;
    destruct secret; break_remoteCache; destruct (baseUrl =? "");
    reflexivity.
Qed.

(** C2, as the code has it.  The objects built by [GetService],
    [GetServiceAccount], [GetClusterRole] and [GetClusterRoleBinding] carry
    exactly one owner reference, with the kind, name, UID and API version
    of the configuration and both flags true; so does the object built by
    [GetDeployment] whenever it returns no error, while the empty
    Deployment it returns with an error carries no owner reference. *)
Theorem builders_ownedBy (config : K8sGPT) :
  ownedBy config (Service_ObjectMeta (fst (GetService config))) /\
  ownedBy config (ServiceAccount_ObjectMeta (fst (GetServiceAccount config))) /\
  ownedBy config (ClusterRole_ObjectMeta (fst (GetClusterRole config))) /\
  ownedBy config
    (ClusterRoleBinding_ObjectMeta (fst (GetClusterRoleBinding config))) /\
  (snd (GetDeployment AzureOpenAI config) = None ->
   ownedBy config
     (Deployment_ObjectMeta (fst (GetDeployment AzureOpenAI config)))) /\
  (snd (GetDeployment AzureOpenAI config) <> None ->
   ObjectMeta_OwnerReferences
     (Deployment_ObjectMeta (fst (GetDeployment AzureOpenAI config))) = []).
Proof.
  repeat split.
  1-4: (eexists; cbn; repeat split; reflexivity).
  - intros Hok. rewrite (GetDeployment_ObjectMeta _ Hok).
    eexists; cbn; repeat split; reflexivity.
  - unfold GetDeployment.
    destruct (negb (AISpec_Engine (K8sGPTSpec_AI (K8sGPT_Spec config)) =? "")
              && (AISpec_Backend (K8sGPTSpec_AI (K8sGPT_Spec config)) =? AzureOpenAI));
      [|destruct (negb (AISpec_Engine (K8sGPTSpec_AI (K8sGPT_Spec config)) =? "")
                 && negb (AISpec_Backend (K8sGPTSpec_AI (K8sGPT_Spec config))
                          =? AzureOpenAI))];
      cbn [fst snd]; intros H; try (exfalso; apply H; reflexivity); reflexivity.
Qed.


(** The four builders that are plain literals return no error. *)
Lemma builders_no_error (config : K8sGPT) :
  snd (GetService config) = None /\
  snd (GetServiceAccount config) = None /\
  snd (GetClusterRole config) = None /\
  snd (GetClusterRoleBinding config) = None.
Proof. repeat split. Qed.

End BuilderFacts.

(** ** Facts about running programs *)

Section RunFacts.

Variable W : Type.
Variable h : Handler W.

Lemma run_bind (A B : Type) (p : Prog A) (f : A -> Prog B) (w : W) :
  run h (bind p f) w =
  let '(a, w1, t1) := run h p w in
  let '(b, w2, t2) := run h (f a) w1 in
  (b, w2, t1 ++ t2).
Proof.
  revert w. induction p as [a|X e k IH]; intros w; cbn.
  - destruct (run h (f a) w) as [[b w2] t2]. reflexivity.
  - destruct (@h X e w) as [x w1]. rewrite IH.
    destruct (run h (k x) w1) as [[a w2] t1].
    destruct (run h (f a) w2) as [[b w3] t2]. reflexivity.
Qed.


(** The retry loop around one [CreateOrPatch] call only issues that call,
    and its answers follow [attempts]. *)
Lemma run_OnError (ctx : Context) (k : Kind) (obj : KindType k)
  (f : option (MutateFn k)) (steps : nat) :
  forall (lastErr : option error) (w : W),
    let '(res, _, tr) :=
      run h (OnError steps IsConflict (trigger (CreateOrPatch ctx k obj f)) lastErr) w in
    attempts steps lastErr (createOrPatchAnswers tr) res /\
    Forall (fun en => isCreateOrPatch en = true /\ Entry_ctx en = ctx) tr.
Proof.
  induction steps as [|steps IH]; intros lastErr w; cbn.
  - split; [split; reflexivity|constructor].
  - destruct (@h _ (CreateOrPatch ctx k obj f) w) as [[e|] w1]; cbn.
    + destruct (IsConflict e) eqn:He.
      * specialize (IH (Some e) w1).
        destruct (run h (OnError steps IsConflict
                           (trigger (CreateOrPatch ctx k obj f)) (Some e)) w1)
          as [[res w2] tr].
        cbn. rewrite He. destruct IH as [IH1 IH2].
        split; [exact IH1|]. constructor; [split; reflexivity|exact IH2].
      * cbn. rewrite He. split; [split; reflexivity|].
        constructor; [split; reflexivity|constructor].
    + split; [split; reflexivity|].
      constructor; [split; reflexivity|constructor].
Qed.




(** The type switch of [doSync] issues at most one call, a [Get] of a
    Deployment or a Service with the background context. *)
Lemma run_doSync_switch (k : Kind) (v : KindType k) (w : W) :
  let '(_, _, tr) := run h (doSync_switch k v) w in
  createOrPatchAnswers tr = [] /\
  Forall (fun en => isCreateOrPatch en = false /\ isDelete en = false /\
                    isGetOf KSecret en = false) tr.
Proof.
  destruct k; cbn; try (split; [reflexivity|constructor]);
    (match goal with
     | |- context [@h ?X ?e ?w0] => destruct (@h X e w0) as [[err|ex] w1]
     end;
     [destruct (IsNotFound err)|]; cbn;
     (split; [reflexivity|repeat constructor])).
Qed.

(** A run of [doSync]: the calls of the type switch, then the calls of the
    retry loop, unless the switch returned an error. *)
Lemma run_doSync (ctx : Context) (obj : Object) (w w' : W)
  (res : option error) (tr : list Entry) :
  run h (doSync ctx obj) w = (res, w', tr) ->
  exists t1 t2,
    tr = t1 ++ t2 /\
    createOrPatchAnswers t1 = [] /\
    Forall (fun en => isCreateOrPatch en = false /\ isDelete en = false /\
                      isGetOf KSecret en = false) t1 /\
    Forall (fun en => isCreateOrPatch en = true /\ Entry_ctx en = ctx) t2 /\
    (attempts (Backoff_Steps DefaultRetry) None (createOrPatchAnswers t2) res \/
     (t2 = [] /\ exists err, res = Some err)).
Proof.
  unfold doSync. rewrite run_bind.
  pose proof (run_doSync_switch (Object_kind obj) (Object_value obj) w) as Hs.
  destruct (run h (doSync_switch (Object_kind obj) (Object_value obj)) w)
    as [[r w1] t1].
  destruct Hs as [Hs1 Hs2]. destruct r as [err|t].
  - cbn. intros [= <- <- <-]. exists t1, []. rewrite app_nil_r.
    repeat split; try assumption; [constructor|].
    right. split; [reflexivity|]. exists err. reflexivity.
  - unfold RetryOnConflict.
    pose proof (@run_OnError ctx (Object_kind obj) (Target_obj t)
                  (Target_mutateFn t) (Backoff_Steps DefaultRetry) None w1) as Hr.
    destruct (run h (OnError (Backoff_Steps DefaultRetry) IsConflict
                       (trigger (CreateOrPatch ctx (Object_kind obj)
                                   (Target_obj t) (Target_mutateFn t))) None) w1)
      as [[res2 w2] t2].
    destruct Hr as [Hr1 Hr2]. intros [= <- <- <-]. exists t1, t2.
    repeat split; try assumption. left. exact Hr1.
Qed.

End RunFacts.

(** ** Reconcile-One *)



(** ** Facts about the orchestrator *)

Unset Implicit Arguments.

Lemma filter_none (A : Type) (P : A -> bool) (l : list A) :
  Forall (fun a => P a = false) l -> filter P l = [].
Proof.
  induction 1 as [|a l Ha _ IH]; cbn; [reflexivity|]. rewrite Ha. exact IH.
Qed.

Lemma isCreateOrPatch_not_Get (k : Kind) (en : Entry) :
  isCreateOrPatch en = true -> isGetOf k en = false.
Proof.
  destruct en as [X e x]. unfold isCreateOrPatch, isGetOf. cbn.
  destruct e; [discriminate|reflexivity|reflexivity].
Qed.

Section SyncFacts.

Variable W : Type.
Variable h : Handler W.
Variable AzureOpenAI : string.
Variable ctx : Context.
Variable config : K8sGPT.

(** [Sync] runs the loop on the five built objects, unless [GetDeployment]
    returned an error. *)
Lemma Sync_eq (i : SyncOrDestroy) :
  Sync AzureOpenAI ctx config i =
  match snd (GetDeployment AzureOpenAI config) with
  | Some er => Ret (Some er)
  | None => Sync_loop ctx config i (builtObjects AzureOpenAI config)
  end.
Proof.
  unfold Sync, builtObjects.
  destruct (GetDeployment AzureOpenAI config) as [d [er|]]; reflexivity.
Qed.

Lemma GetDeployment_error_errorString (er : error) :
  snd (GetDeployment AzureOpenAI config) = Some er ->
  IsAlreadyExists er = false /\ IsNotFound er = false.
Proof.
  unfold GetDeployment.
  destruct (negb (AISpec_Engine (K8sGPTSpec_AI (K8sGPT_Spec config)) =? "")
            && (AISpec_Backend (K8sGPTSpec_AI (K8sGPT_Spec config)) =? AzureOpenAI));
    [discriminate|].
  destruct (negb (AISpec_Engine (K8sGPTSpec_AI (K8sGPT_Spec config)) =? "")
            && negb (AISpec_Backend (K8sGPTSpec_AI (K8sGPT_Spec config))
                     =? AzureOpenAI));
    [|discriminate].
  cbn. intros [= <-]. split; reflexivity.
Qed.

Lemma run_Sync_loop_app (i : SyncOrDestroy) (done rest : list Object) :
  forall (w w1 : W) (t1 : list Entry),
    run h (Sync_loop ctx config i done) w = (None, w1, t1) ->
    run h (Sync_loop ctx config i (done ++ rest)) w =
    let '(r, w2, t2) := run h (Sync_loop ctx config i rest) w1 in
    (r, w2, t1 ++ t2).
Proof.
  induction done as [|obj done IH]; intros w w1 t1; cbn [Sync_loop app].
  - cbn. intros [= <- <-].
    destruct (run h (Sync_loop ctx config i rest) w) as [[r w2] t2]. reflexivity.
  - rewrite !run_bind.
    destruct (run h (Sync_body ctx config i obj) w) as [[[e|] wb] tb].
    + cbn. discriminate.
    + destruct (run h (Sync_loop ctx config i done) wb) as [[r wd] td] eqn:Hd.
      intros [= -> -> <-]. rewrite (IH _ _ _ Hd).
      destruct (run h (Sync_loop ctx config i rest) w1) as [[r w2] t2].
      rewrite app_assoc. reflexivity.
Qed.

Lemma run_Sync_loop_cons (i : SyncOrDestroy) (obj : Object) (rest : list Object)
  (w : W) :
  run h (Sync_loop ctx config i (obj :: rest)) w =
  let '(r, w1, t1) := run h (Sync_body ctx config i obj) w in
  match r with
  | Some e => (Some e, w1, t1)
  | None =>
      let '(r2, w2, t2) := run h (Sync_loop ctx config i rest) w1 in
      (r2, w2, t1 ++ t2)
  end.
Proof.
  cbn [Sync_loop]. rewrite run_bind.
  destruct (run h (Sync_body ctx config i obj) w) as [[[e|] w1] t1].
  - cbn. rewrite app_nil_r. reflexivity.
  - reflexivity.
Qed.

(** The [SyncOp] body after a secret check that passed. *)
Lemma run_Sync_body_sync (obj : Object) (w w1 w2 : W) (ts t2 : list Entry)
  (err : option error) :
  run h (Sync_checkSecret ctx config) w = (None, w1, ts) ->
  run h (doSync ctx obj) w1 = (err, w2, t2) ->
  run h (Sync_body ctx config SyncOp obj) w =
  (match err with
   | Some e => if IsAlreadyExists e then None else Some e
   | None => None
   end, w2, ts ++ t2).
Proof.
  intros Hs Hd. cbn [Sync_body]. rewrite run_bind, Hs, run_bind, Hd.
  destruct err as [e|]; [destruct (IsAlreadyExists e)|]; cbn;
    rewrite app_nil_r; reflexivity.
Qed.

Lemma run_Sync_body_destroy (obj : Object) (w w1 : W) (err : option error) :
  @h _ (Delete ctx obj) w = (err, w1) ->
  run h (Sync_body ctx config DestroyOp obj) w =
  (match err with
   | Some e => if IsNotFound e then None else Some e
   | None => None
   end, w1, [mkEntry (Delete ctx obj) err]).
Proof.
  intros Hd. cbn. rewrite Hd.
  destruct err as [e|]; [destruct (IsNotFound e)|]; reflexivity.
Qed.

(** The secret check, when the read of the secret fails. *)
Lemma run_Sync_checkSecret_fail (s : SecretRef) (e : error) (w w1 : W) :
  AISpec_Secret (K8sGPTSpec_AI (K8sGPT_Spec config)) = Some s ->
  @h _ (Get ctx KSecret
         {| NamespacedName_Name := SecretRef_Name s;
            NamespacedName_Namespace := K8sGPT_Namespace config |}) w
  = (inl e, w1) ->
  run h (Sync_checkSecret ctx config) w =
  (Some secretMissing, w1,
   [mkEntry (Get ctx KSecret
               {| NamespacedName_Name := SecretRef_Name s;
                  NamespacedName_Namespace := K8sGPT_Namespace config |})
            (inl e)]).
Proof.
  intros Hs Hg. unfold Sync_checkSecret. rewrite Hs. cbn in *. rewrite Hg. reflexivity.
Qed.

Lemma run_Sync_body_secret_fail (s : SecretRef) (e : error) (obj : Object)
  (w w1 : W) :
  AISpec_Secret (K8sGPTSpec_AI (K8sGPT_Spec config)) = Some s ->
  @h _ (Get ctx KSecret
         {| NamespacedName_Name := SecretRef_Name s;
            NamespacedName_Namespace := K8sGPT_Namespace config |}) w
  = (inl e, w1) ->
  run h (Sync_body ctx config SyncOp obj) w =
  (Some secretMissing, w1,
   [mkEntry (Get ctx KSecret
               {| NamespacedName_Name := SecretRef_Name s;
                  NamespacedName_Namespace := K8sGPT_Namespace config |})
            (inl e)]).
Proof.
  intros Hs Hg. cbn [Sync_body].
  rewrite run_bind, (run_Sync_checkSecret_fail s e w w1 Hs Hg). reflexivity.
Qed.

Lemma run_Sync_checkSecret (s : SecretRef) (w : W) :
  AISpec_Secret (K8sGPTSpec_AI (K8sGPT_Spec config)) = Some s ->
  run h (Sync_checkSecret ctx config) w =
  let key := {| NamespacedName_Name := SecretRef_Name s;
                NamespacedName_Namespace := K8sGPT_Namespace config |} in
  let (r, w1) := @h _ (Get ctx KSecret key) w in
  (match r with inl _ => Some secretMissing | inr _ => None end, w1,
   [mkEntry (Get ctx KSecret key) r]).
Proof.
  intros Hs. unfold Sync_checkSecret. rewrite Hs. cbn.
  match goal with
  | |- context [@h ?X ?e ?w0] => destruct (@h X e w0) as [[e1|sec] w1]
  end; reflexivity.
Qed.

Lemma run_Sync_checkSecret_result (w w1 : W) (e : error) (ts : list Entry) :
  run h (Sync_checkSecret ctx config) w = (Some e, w1, ts) -> e = secretMissing.
Proof.
  unfold Sync_checkSecret.
  destruct (AISpec_Secret (K8sGPTSpec_AI (K8sGPT_Spec config))) as [s|]; cbn.
  - match goal with
    | |- context [@h ?X ?e ?w0] => destruct (@h X e w0) as [[e1|sec] w2]
    end; cbn; intros [= <- _ _]; reflexivity.
  - discriminate.
Qed.

(** What [Sync_body] returns is never an error it is meant to ignore. *)
Lemma run_Sync_body_result (i : SyncOrDestroy) (obj : Object) (w w1 : W)
  (e : error) (t1 : list Entry) :
  run h (Sync_body ctx config i obj) w = (Some e, w1, t1) ->
  match i with
  | SyncOp => IsAlreadyExists e = false
  | DestroyOp => IsNotFound e = false
  end.
Proof.
  destruct i.
  - cbn [Sync_body]. rewrite run_bind.
    destruct (run h (Sync_checkSecret ctx config) w) as [[[es|] ws] ts] eqn:Hs.
    + apply run_Sync_checkSecret_result in Hs. subst es. cbn.
      intros [= <- _ _]. reflexivity.
    + rewrite run_bind.
      destruct (run h (doSync ctx obj) ws) as [[[e'|] wd] td].
      * destruct (IsAlreadyExists e') eqn:He; cbn.
        -- discriminate.
        -- intros [= <- _ _]. exact He.
      * cbn. discriminate.
  - cbn.
    match goal with
    | |- context [@h ?X ?ev ?w0] => destruct (@h X ev w0) as [[e'|] wd]
    end.
    + destruct (IsNotFound e') eqn:He; cbn.
      * discriminate.
      * intros [= <- _ _]. exact He.
    + cbn. discriminate.
Qed.

Lemma run_Sync_loop_result (i : SyncOrDestroy) (objs : list Object) :
  forall (w w1 : W) (e : error) (t1 : list Entry),
    run h (Sync_loop ctx config i objs) w = (Some e, w1, t1) ->
    match i with
    | SyncOp => IsAlreadyExists e = false
    | DestroyOp => IsNotFound e = false
    end.
Proof.
  induction objs as [|obj rest IH]; intros w w1 e t1.
  - cbn. discriminate.
  - rewrite run_Sync_loop_cons.
    destruct (run h (Sync_body ctx config i obj) w) as [[[eb|] wb] tb] eqn:Hb.
    + intros [= <- _ _]. exact (run_Sync_body_result _ _ _ _ _ _ Hb).
    + destruct (run h (Sync_loop ctx config i rest) wb) as [[r wr] tr] eqn:Hr.
      intros [= -> _ _]. exact (IH _ _ _ _ Hr).
Qed.

(** [doSync] never reads a secret. *)
Lemma doSync_no_secret_get (obj : Object) (w w1 : W) (res : option error)
  (tr : list Entry) :
  run h (doSync ctx obj) w = (res, w1, tr) ->
  filter (isGetOf KSecret) tr = [].
Proof.
  intros Hrun.
  destruct (@run_doSync W h ctx obj w w1 res tr Hrun)
    as (t1 & t2 & -> & _ & H1 & H2 & _).
  rewrite filter_app. rewrite (filter_none _ _ t1), (filter_none _ _ t2).
  - reflexivity.
  - eapply Forall_impl; [|exact H2]. cbn. intros en [Hen _].
    exact (isCreateOrPatch_not_Get KSecret en Hen).
  - eapply Forall_impl; [|exact H1]. cbn. intros en (_ & _ & Hen). exact Hen.
Qed.

(** With a secret reference, a [SyncOp] loop that goes through [objs]
    reads the secret once for every object. *)
Lemma run_Sync_loop_secret_gets (s : SecretRef) (objs : list Object) :
  AISpec_Secret (K8sGPTSpec_AI (K8sGPT_Spec config)) = Some s ->
  forall (w w1 : W) (tr : list Entry),
    run h (Sync_loop ctx config SyncOp objs) w = (None, w1, tr) ->
    length (filter (isGetOf KSecret) tr) = length objs.
Proof.
  intros Hs. induction objs as [|obj rest IH]; intros w w1 tr.
  - cbn. intros [= _ <-]. reflexivity.
  - rewrite run_Sync_loop_cons. cbn [Sync_body].
    rewrite run_bind, (run_Sync_checkSecret s w Hs). cbv zeta.
    match goal with
    | |- context [@h ?X ?e ?w0] => destruct (@h X e w0) as [[e1|sec] ws]
    end.
    + cbn. discriminate.
    + rewrite run_bind.
      destruct (run h (doSync ctx obj) ws) as [[err wd] td] eqn:Hd.
      pose proof (doSync_no_secret_get _ _ _ _ _ Hd) as Hnone.
      destruct (run h (Sync_loop ctx config SyncOp rest) wd) as [[r wr] t3] eqn:Hr.
      destruct err as [e'|]; [destruct (IsAlreadyExists e')|]; cbn;
        try discriminate; rewrite Hr; intros [= -> _ <-]; cbn;
        rewrite app_nil_r, filter_app, Hnone; cbn;
        rewrite (IH _ _ _ Hr); reflexivity.
Qed.

End SyncFacts.

(** ** Claims about the orchestrator *)

(** C9.  [GetService], [GetServiceAccount], [GetClusterRole] and
    [GetClusterRoleBinding] return no error for any configuration;
    [GetDeployment] can return one; so [Sync] returns a builder's error
    only when that error is the one of [GetDeployment], the fifth builder,
    and otherwise enters its loop with the five built objects. *)
Theorem only_GetDeployment_fails (AzureOpenAI : string) :
  (forall config : K8sGPT,
     snd (GetService config) = None /\
     snd (GetServiceAccount config) = None /\
     snd (GetClusterRole config) = None /\
     snd (GetClusterRoleBinding config) = None) /\
  (exists config : K8sGPT, snd (GetDeployment AzureOpenAI config) <> None) /\
  (forall (ctx : Context) (config : K8sGPT) (i : SyncOrDestroy),
     Sync AzureOpenAI ctx config i =
     match snd (GetDeployment AzureOpenAI config) with
     | Some er => Ret (Some er)
     | None => Sync_loop ctx config i (builtObjects AzureOpenAI config)
     end).
Proof.
  split; [exact builders_no_error|]. split.
  - exists (exampleConfig (if AzureOpenAI =? "a" then "b" else "a") "gpt" None None).
    apply GetDeployment_error_iff. cbn. split; [discriminate|].
    destruct (String.eqb_spec AzureOpenAI "a") as [->|Hne]; congruence.
  - intros ctx config i. apply Sync_eq.
Qed.

(** C4.  When the configuration references a secret and the read of that
    secret in the configuration's namespace fails, [Sync] in synchronize
    mode returns an error and has issued no create-or-patch (and no
    delete) call. *)
Theorem Sync_secret_missing (W : Type) (h : Handler W) (AzureOpenAI : string)
  (ctx : Context) (config : K8sGPT) (s : SecretRef) (e : error) (w w1 : W) :
  AISpec_Secret (K8sGPTSpec_AI (K8sGPT_Spec config)) = Some s ->
  h _ (Get ctx KSecret
         {| NamespacedName_Name := SecretRef_Name s;
            NamespacedName_Namespace := K8sGPT_Namespace config |}) w
  = (inl e, w1) ->
  exists (er : error) (w' : W) (tr : list Entry),
    run h (Sync AzureOpenAI ctx config SyncOp) w = (Some er, w', tr) /\
    Forall (fun en => isCreateOrPatch en = false /\ isDelete en = false) tr.
Proof.
  intros Hs Hg. rewrite Sync_eq.
  destruct (snd (GetDeployment AzureOpenAI config)) as [er|].
  - exists er, w, []. split; [reflexivity|constructor].
  - unfold builtObjects. rewrite run_Sync_loop_cons.
    rewrite (run_Sync_body_secret_fail W h ctx config s e _ w w1 Hs Hg).
    eexists _, _, _. split; [reflexivity|].
    constructor; [split; reflexivity|constructor].
Qed.

(** C5.  In a pass over the built objects: in synchronize mode an error of
    [doSync] that is already-exists lets the loop go on with the next
    object, and any other error of [doSync] is what [Sync] returns, with
    the cluster left in the state that call left it in and no call after
    it; in destroy mode the same holds for [Delete] and not-found.  [Sync]
    never returns an already-exists error in synchronize mode nor a
    not-found error in destroy mode. *)
Theorem Sync_error_policy (W : Type) (h : Handler W) (AzureOpenAI : string)
  (ctx : Context) (config : K8sGPT) :
  (forall (done rest : list Object) (obj : Object) (w w1 w2 w3 : W)
          (t1 ts t2 : list Entry) (e : error),
     snd (GetDeployment AzureOpenAI config) = None ->
     builtObjects AzureOpenAI config = done ++ obj :: rest ->
     run h (Sync_loop ctx config SyncOp done) w = (None, w1, t1) ->
     run h (Sync_checkSecret ctx config) w1 = (None, w2, ts) ->
     run h (doSync ctx obj) w2 = (Some e, w3, t2) ->
     run h (Sync AzureOpenAI ctx config SyncOp) w =
     if IsAlreadyExists e then
       let '(r, w4, t3) := run h (Sync_loop ctx config SyncOp rest) w3 in
       (r, w4, t1 ++ (ts ++ t2) ++ t3)
     else (Some e, w3, t1 ++ ts ++ t2)) /\
  (forall (done rest : list Object) (obj : Object) (w w1 w2 : W)
          (t1 : list Entry) (e : error),
     snd (GetDeployment AzureOpenAI config) = None ->
     builtObjects AzureOpenAI config = done ++ obj :: rest ->
     run h (Sync_loop ctx config DestroyOp done) w = (None, w1, t1) ->
     h _ (Delete ctx obj) w1 = (Some e, w2) ->
     run h (Sync AzureOpenAI ctx config DestroyOp) w =
     if IsNotFound e then
       let '(r, w3, t3) := run h (Sync_loop ctx config DestroyOp rest) w2 in
       (r, w3, t1 ++ [mkEntry (Delete ctx obj) (Some e)] ++ t3)
     else (Some e, w2, t1 ++ [mkEntry (Delete ctx obj) (Some e)])) /\
  (forall (i : SyncOrDestroy) (w w' : W) (e : error) (tr : list Entry),
     run h (Sync AzureOpenAI ctx config i) w = (Some e, w', tr) ->
     match i with
     | SyncOp => IsAlreadyExists e = false
     | DestroyOp => IsNotFound e = false
     end).
Proof.
  split; [|split].
  - intros done rest obj w w1 w2 w3 t1 ts t2 e Hok Hobjs Hdone Hs Hd.
    rewrite Sync_eq, Hok, Hobjs.
    rewrite (run_Sync_loop_app W h ctx config SyncOp done (obj :: rest) w w1 t1 Hdone).
    rewrite run_Sync_loop_cons.
    rewrite (run_Sync_body_sync W h ctx config obj w1 w2 w3 ts t2 (Some e) Hs Hd).
    destruct (IsAlreadyExists e).
    + destruct (run h (Sync_loop ctx config SyncOp rest) w3) as [[r w4] t3].
      reflexivity.
    + reflexivity.
  - intros done rest obj w w1 w2 t1 e Hok Hobjs Hdone Hd.
    rewrite Sync_eq, Hok, Hobjs.
    rewrite (run_Sync_loop_app W h ctx config DestroyOp done (obj :: rest) w w1 t1 Hdone).
    rewrite run_Sync_loop_cons.
    rewrite (run_Sync_body_destroy W h ctx config obj w1 w2 (Some e) Hd).
    destruct (IsNotFound e).
    + destruct (run h (Sync_loop ctx config DestroyOp rest) w2) as [[r w3] t3].
      reflexivity.
    + reflexivity.
  - intros i w w' e tr. rewrite Sync_eq.
    destruct (snd (GetDeployment AzureOpenAI config)) as [er|] eqn:Hd.
    + cbn. intros [= <- _ _].
      destruct (GetDeployment_error_errorString AzureOpenAI config er Hd).
      destruct i; assumption.
    + apply run_Sync_loop_result.
Qed.

(** C10.  With a secret reference, a synchronize pass that goes through
    the five objects has read the secret five times, once in each turn of
    the loop; and in any turn, whatever error the read of the secret
    answers, the turn returns the one fixed error and the answered error is
    dropped. *)
Theorem Sync_secret_check_per_object (W : Type) (h : Handler W)
  (AzureOpenAI : string) (ctx : Context) (config : K8sGPT) (s : SecretRef) :
  AISpec_Secret (K8sGPTSpec_AI (K8sGPT_Spec config)) = Some s ->
  (forall (w w' : W) (tr : list Entry),
     run h (Sync AzureOpenAI ctx config SyncOp) w = (None, w', tr) ->
     length (filter (isGetOf KSecret) tr) = 5) /\
  (forall (obj : Object) (e : error) (w w1 : W),
     h _ (Get ctx KSecret
            {| NamespacedName_Name := SecretRef_Name s;
               NamespacedName_Namespace := K8sGPT_Namespace config |}) w
     = (inl e, w1) ->
     run h (Sync_body ctx config SyncOp obj) w =
     (Some (errorString
              "references secret does not exist, cannot create deployment"),
      w1,
      [mkEntry (Get ctx KSecret
                  {| NamespacedName_Name := SecretRef_Name s;
                     NamespacedName_Namespace := K8sGPT_Namespace config |})
               (inl e)])).
Proof.
  intros Hs. split.
  - intros w w' tr. rewrite Sync_eq.
    destruct (snd (GetDeployment AzureOpenAI config)) as [er|].
    + cbn. discriminate.
    + intros Hrun.
      exact (run_Sync_loop_secret_gets W h ctx config s
               (builtObjects AzureOpenAI config) Hs w w' tr Hrun).
  - intros obj e w w1 Hg.
    exact (run_Sync_body_secret_fail W h ctx config s e obj w w1 Hs Hg).
Qed.

(** C8, at a pass on a cluster where nothing exists, called with a derived
    context: the two reads of [doSync] (of the Service and of the
    Deployment) are issued with the background context, every other call
    with the caller's context. *)
Theorem Sync_contexts_of_calls :
  map (fun en => (isGetOf KService en || isGetOf KDeployment en, Entry_ctx en))
      (snd (run emptyCluster (Sync azureopenai callerCtx plainConfig SyncOp) 0)) =
  [ (true, context_Background);
    (false, context_Derived 1);
    (false, context_Derived 1);
    (false, context_Derived 1);
    (false, context_Derived 1);
    (true, context_Background);
    (false, context_Derived 1) ].
Proof. reflexivity. Qed.

(** ** The claims at concrete configurations and clusters *)

Lemma GetDeployment_engine_witness :
  AISpec_Engine
    (K8sGPTSpec_AI
       (K8sGPT_Spec (exampleConfig azureopenai "gpt-35-turbo" None None))) <> "" /\
  snd (GetDeployment azureopenai
         (exampleConfig azureopenai "gpt-35-turbo" None None)) = None /\
  In {| EnvVar_Name := "K8SGPT_ENGINE";
        EnvVar_Value := "gpt-35-turbo";
        EnvVar_ValueFrom := None |}
     (Deployment_Env
        (fst (GetDeployment azureopenai
                (exampleConfig azureopenai "gpt-35-turbo" None None)))).
Proof.
  split; [discriminate|].
  apply (proj1 (@GetDeployment_engine azureopenai
                  (exampleConfig azureopenai "gpt-35-turbo" None None)
                  ltac:(discriminate))).
  reflexivity.
Defined.

(** The empty Deployment returned with the validation error has no owner
    reference at all. *)
Lemma builders_ownedBy_counterexample :
  ~ ownedBy engineOnOpenAI
      (Deployment_ObjectMeta (fst (GetDeployment azureopenai engineOnOpenAI))).
Proof.
  intros [r [H _]]. vm_compute in H. discriminate H.
Qed.

Lemma builders_ownedBy_witness :
  snd (GetDeployment azureopenai (exampleConfig "openai" "" None None)) = None /\
  ownedBy (exampleConfig "openai" "" None None)
    (Deployment_ObjectMeta
       (fst (GetDeployment azureopenai (exampleConfig "openai" "" None None)))).
Proof.
  split; [reflexivity|].
  apply (proj1 (proj2 (proj2 (proj2 (proj2
           (@builders_ownedBy azureopenai (exampleConfig "openai" "" None None))))))).
  reflexivity.
Defined.



Lemma Sync_secret_missing_witness :
  AISpec_Secret
    (K8sGPTSpec_AI
       (K8sGPT_Spec (exampleConfig "openai" "" (Some exampleSecret) None)))
  = Some exampleSecret /\
  @emptyCluster _
    (Get (context_Derived 1) KSecret
       {| NamespacedName_Name := SecretRef_Name exampleSecret;
          NamespacedName_Namespace := "default" |}) 0
  = (inl notFound, 1) /\
  exists (er : error) (w' : nat) (tr : list Entry),
    run emptyCluster
      (Sync azureopenai (context_Derived 1)
         (exampleConfig "openai" "" (Some exampleSecret) None) SyncOp) 0
    = (Some er, w', tr) /\
    Forall (fun en => isCreateOrPatch en = false /\ isDelete en = false) tr.
Proof.
  split; [reflexivity|]. split; [reflexivity|].
  exact (Sync_secret_missing nat emptyCluster azureopenai (context_Derived 1)
           (exampleConfig "openai" "" (Some exampleSecret) None)
           exampleSecret notFound 0 1 eq_refl eq_refl).
Defined.

Lemma Sync_error_policy_witness :
  run racingCluster (doSync callerCtx plainService) 0 =
  (Some alreadyExists, 2,
   snd (run racingCluster (doSync callerCtx plainService) 0)) /\
  run racingCluster (Sync azureopenai callerCtx plainConfig SyncOp) 0 =
  (let '(r, w4, t3) :=
     run racingCluster
       (Sync_loop callerCtx plainConfig SyncOp
          (tl (builtObjects azureopenai plainConfig))) 2 in
   (r, w4,
    [] ++ ([] ++ snd (run racingCluster (doSync callerCtx plainService) 0))
       ++ t3)) /\
  run racingCluster (Sync azureopenai callerCtx plainConfig DestroyOp) 0 =
  (let '(r, w3, t3) :=
     run racingCluster
       (Sync_loop callerCtx plainConfig DestroyOp
          (tl (builtObjects azureopenai plainConfig))) 1 in
   (r, w3, [] ++ [mkEntry (Delete callerCtx plainService) (Some notFound)] ++ t3)).
Proof.
  split; [reflexivity|]. split.
  - exact (proj1 (Sync_error_policy nat racingCluster azureopenai callerCtx
                    plainConfig)
             [] (tl (builtObjects azureopenai plainConfig)) plainService
             0 0 0 2 [] []
             (snd (run racingCluster (doSync callerCtx plainService) 0))
             alreadyExists eq_refl eq_refl eq_refl eq_refl eq_refl).
  - exact (proj1 (proj2 (Sync_error_policy nat racingCluster azureopenai
                           callerCtx plainConfig))
             [] (tl (builtObjects azureopenai plainConfig)) plainService
             0 0 1 [] notFound eq_refl eq_refl eq_refl eq_refl).
Defined.



Lemma Sync_secret_check_per_object_witness :
  AISpec_Secret (K8sGPTSpec_AI (K8sGPT_Spec secretConfig)) = Some exampleSecret /\
  run fullCluster (Sync azureopenai callerCtx secretConfig SyncOp) 0
  = (None, 12,
     snd (run fullCluster (Sync azureopenai callerCtx secretConfig SyncOp) 0)) /\
  length
    (filter (isGetOf KSecret)
       (snd (run fullCluster (Sync azureopenai callerCtx secretConfig SyncOp) 0)))
  = 5.
Proof.
  split; [reflexivity|]. split; [reflexivity|].
  exact (proj1 (Sync_secret_check_per_object nat fullCluster azureopenai
                  callerCtx secretConfig exampleSecret eq_refl)
           0 12
           (snd (run fullCluster (Sync azureopenai callerCtx secretConfig SyncOp) 0))
           eq_refl).
Defined.

(** ** Runs on the test clusters *)

(** A refused write on the first object ends the pass there: one read and
    one write have been issued, and the refusal is what [Sync] returns. *)
Example Sync_forbidden_aborts :
  fst (run forbiddenCluster (Sync azureopenai callerCtx plainConfig SyncOp) 0)
  = (Some forbidden, 2) /\
  map isCreateOrPatch
    (snd (run forbiddenCluster (Sync azureopenai callerCtx plainConfig SyncOp) 0))
  = [false; true].
Proof. split; reflexivity. Qed.

(** Destroying what does not exist deletes the five objects in order and
    returns no error. *)
Example Sync_destroy_absent :
  fst (run emptyCluster (Sync azureopenai callerCtx plainConfig DestroyOp) 0)
  = (None, 5) /\
  map isDelete
    (snd (run emptyCluster (Sync azureopenai callerCtx plainConfig DestroyOp) 0))
  = [true; true; true; true; true].
Proof. split; reflexivity. Qed.

(** Under lasting conflicts the write is attempted five times and the
    conflict is returned. *)
Example doSync_conflicts_exhaust :
  fst (run alwaysConflictCluster
         (doSync callerCtx (mkObject KDeployment plainDeployment)) 0)
  = (Some conflict, 6) /\
  createOrPatchAnswers
    (snd (run alwaysConflictCluster
            (doSync callerCtx (mkObject KDeployment plainDeployment)) 0))
  = [Some conflict; Some conflict; Some conflict; Some conflict; Some conflict].
Proof. split; reflexivity. Qed.

(** The environment of the container for a configuration with a secret, an
    S3 remote cache and an engine under AzureOpenAI. *)
Example GetDeployment_env_names :
  map EnvVar_Name
    (Deployment_Env
       (fst (GetDeployment azureopenai
               (exampleConfig azureopenai "gpt-35-turbo" (Some exampleSecret)
                  (Some (exampleRemoteCache (Some mkS3Backend) None))))))
  = [ "K8SGPT_MODEL"; "K8SGPT_BACKEND"; "XDG_CONFIG_HOME"; "XDG_CACHE_HOME";
      "K8SGPT_PASSWORD"; "AWS_ACCESS_KEY_ID"; "AWS_SECRET_ACCESS_KEY";
      "K8SGPT_ENGINE" ].
Proof. reflexivity. Qed.

(** ** More on the builders *)

Section BuilderLayout.

Variable AzureOpenAI : string.

(** X1.  When [GetDeployment] returns no error, the environment of the
    container is, in this order: the four fixed variables, the password
    variable if a secret is referenced, the remote-cache credentials, the
    base URL if it is not empty, and the engine if it is not empty. *)
Theorem GetDeployment_env_layout (config : K8sGPT) :
  snd (GetDeployment AzureOpenAI config) = None ->
  Deployment_Env (fst (GetDeployment AzureOpenAI config)) =
  fixedEnv config
  ++ match AISpec_Secret (K8sGPTSpec_AI (K8sGPT_Spec config)) with
     | Some secret => [passwordVar secret]
     | None => []
     end
  ++ remoteCacheEnv (K8sGPTSpec_RemoteCache (K8sGPT_Spec config))
  ++ (if AISpec_BaseUrl (K8sGPTSpec_AI (K8sGPT_Spec config)) =? "" then []
      else [ {| EnvVar_Name := "K8SGPT_BASEURL";
                EnvVar_Value := AISpec_BaseUrl (K8sGPTSpec_AI (K8sGPT_Spec config));
                EnvVar_ValueFrom := None |} ])
  ++ (if AISpec_Engine (K8sGPTSpec_AI (K8sGPT_Spec config)) =? "" then []
      else [ {| EnvVar_Name := "K8SGPT_ENGINE";
                EnvVar_Value := AISpec_Engine (K8sGPTSpec_AI (K8sGPT_Spec config));
                EnvVar_ValueFrom := None |} ]).
Proof.
  break_config config. unfold GetDeployment.
  cbn [K8sGPT_Spec K8sGPTSpec_AI K8sGPTSpec_RemoteCache AISpec_Backend
       AISpec_BaseUrl AISpec_Model AISpec_Engine AISpec_Secret].
  destruct (engine =? ""); destruct (backend =? AzureOpenAI);
    cbn [negb andb fst snd]; intros Hok; try discriminate Hok; clear Hok;
    destruct secret; break_remoteCache; destruct (baseUrl =? "");
    reflexivity.
Qed.

(** X2.  When [GetDeployment] returns no error, no two variables of the
    container's environment have the same name. *)
Theorem GetDeployment_env_NoDup (config : K8sGPT) :
  snd (GetDeployment AzureOpenAI config) = None ->
  NoDup (map EnvVar_Name (Deployment_Env (fst (GetDeployment AzureOpenAI config)))).
Proof.
  break_config config. unfold GetDeployment.
  cbn [K8sGPT_Spec K8sGPTSpec_AI K8sGPTSpec_RemoteCache AISpec_Backend
       AISpec_BaseUrl AISpec_Model AISpec_Engine AISpec_Secret].
  destruct (engine =? ""); destruct (backend =? AzureOpenAI);
    cbn [negb andb fst snd]; intros Hok; try discriminate Hok; clear Hok;
    destruct secret; break_remoteCache; destruct (baseUrl =? ""); cbn;
    repeat (constructor; [cbn; intuition discriminate|]); constructor.
Qed.

(** X3.  When [GetDeployment] returns no error, the Deployment has one
    replica and one container, named k8sgpt, that runs the image
    repository:version with the argument serve, always pulls the image and
    listens on port 8080, in a pod that runs under the service account
    k8sgpt, whatever the AI settings are. *)
Theorem GetDeployment_container (config : K8sGPT) :
  snd (GetDeployment AzureOpenAI config) = None ->
  exists c : Container,
    Deployment_Containers (fst (GetDeployment AzureOpenAI config)) = [c] /\
    Container_Name c = "k8sgpt" /\
    Container_Image c =
      (K8sGPTSpec_Repository (K8sGPT_Spec config) ++ ":"
       ++ K8sGPTSpec_Version (K8sGPT_Spec config))%string /\
    Container_Args c = ["serve"] /\
    Container_ImagePullPolicy c = Some PullAlways /\
    Container_Ports c = [ {| ContainerPort_ContainerPort := 8080 |} ] /\
    DeploymentSpec_Replicas
      (Deployment_Spec (fst (GetDeployment AzureOpenAI config))) = Some 1%Z /\
    PodSpec_ServiceAccountName
      (PodTemplateSpec_Spec
         (DeploymentSpec_Template
            (Deployment_Spec (fst (GetDeployment AzureOpenAI config))))) = "k8sgpt".
Proof.
  break_config config. unfold GetDeployment.
  cbn [K8sGPT_Spec K8sGPTSpec_AI K8sGPTSpec_RemoteCache AISpec_Backend
       AISpec_BaseUrl AISpec_Model AISpec_Engine AISpec_Secret
       K8sGPTSpec_Repository K8sGPTSpec_Version].
  destruct (engine =? ""); destruct (backend =? AzureOpenAI);
    cbn [negb andb fst snd]; intros Hok; try discriminate Hok; clear Hok;
    destruct secret; break_remoteCache; destruct (baseUrl =? "");
    (eexists; split; [reflexivity|]; repeat split).
Qed.

(** X4.  [GetDeployment] returns an error exactly when the engine is not
    empty and the backend is not AzureOpenAI; it then returns the empty
    Deployment and the one fixed message. *)
Theorem GetDeployment_fails_iff (config : K8sGPT) :
  (snd (GetDeployment AzureOpenAI config) <> None <->
   AISpec_Engine (K8sGPTSpec_AI (K8sGPT_Spec config)) <> "" /\
   AISpec_Backend (K8sGPTSpec_AI (K8sGPT_Spec config)) <> AzureOpenAI) /\
  (snd (GetDeployment AzureOpenAI config) <> None ->
   GetDeployment AzureOpenAI config =
   (Deployment_zero,
    Some (errorString "Engine is supported only by azureopenai provider."))).
Proof.
  split; [apply GetDeployment_error_iff|].
  unfold GetDeployment.
  destruct (negb (AISpec_Engine (K8sGPTSpec_AI (K8sGPT_Spec config)) =? "")
            && (AISpec_Backend (K8sGPTSpec_AI (K8sGPT_Spec config)) =? AzureOpenAI)).
  - cbn. congruence.
  - destruct (negb (AISpec_Engine (K8sGPTSpec_AI (K8sGPT_Spec config)) =? "")
              && negb (AISpec_Backend (K8sGPTSpec_AI (K8sGPT_Spec config))
                       =? AzureOpenAI)).
    + reflexivity.
    + cbn. congruence.
Qed.

(** X5.  When [GetDeployment] returns no error, the Service selects the
    pods of the Deployment: its selector is the Deployment's selector and
    the labels of the pod template, its port is the container's port, and
    both objects are in the configuration's namespace. *)
Theorem Service_selects_Deployment (config : K8sGPT) :
  snd (GetDeployment AzureOpenAI config) = None ->
  let service := fst (GetService config) in
  let deployment := fst (GetDeployment AzureOpenAI config) in
  DeploymentSpec_Selector (Deployment_Spec deployment) =
    Some {| LabelSelector_MatchLabels :=
              ServiceSpec_Selector (Service_Spec service) |} /\
  ObjectMeta_Labels
    (PodTemplateSpec_ObjectMeta
       (DeploymentSpec_Template (Deployment_Spec deployment))) =
    ServiceSpec_Selector (Service_Spec service) /\
  map ServicePort_Port (ServiceSpec_Ports (Service_Spec service)) =
    flat_map (fun c => map ContainerPort_ContainerPort (Container_Ports c))
      (Deployment_Containers deployment) /\
  ObjectMeta_Namespace (Service_ObjectMeta service) = K8sGPT_Namespace config /\
  ObjectMeta_Namespace (Deployment_ObjectMeta deployment) = K8sGPT_Namespace config.
Proof.
  break_config config. unfold GetDeployment.
  cbn [K8sGPT_Spec K8sGPTSpec_AI K8sGPTSpec_RemoteCache AISpec_Backend
       AISpec_BaseUrl AISpec_Model AISpec_Engine AISpec_Secret].
  destruct (engine =? ""); destruct (backend =? AzureOpenAI);
    cbn [negb andb fst snd]; intros Hok; try discriminate Hok; clear Hok;
    destruct secret; break_remoteCache; destruct (baseUrl =? "");
    repeat split.
Qed.

(** X6.  The ClusterRoleBinding binds the built ClusterRole to the built
    ServiceAccount: its role reference names the ClusterRole, its one
    subject is the ServiceAccount by name and namespace; and when
    [GetDeployment] returns no error the pod runs under that
    ServiceAccount, in its namespace. *)
Theorem rbac_wiring (config : K8sGPT) :
  let sa := fst (GetServiceAccount config) in
  let role := fst (GetClusterRole config) in
  let binding := fst (GetClusterRoleBinding config) in
  RoleRef_Kind (ClusterRoleBinding_RoleRef binding) = "ClusterRole" /\
  RoleRef_Name (ClusterRoleBinding_RoleRef binding) =
    ObjectMeta_Name (ClusterRole_ObjectMeta role) /\
  ClusterRoleBinding_Subjects binding =
    [ {| Subject_Kind := "ServiceAccount";
         Subject_Name := ObjectMeta_Name (ServiceAccount_ObjectMeta sa);
         Subject_Namespace := ObjectMeta_Namespace (ServiceAccount_ObjectMeta sa) |} ] /\
  (snd (GetDeployment AzureOpenAI config) = None ->
   PodSpec_ServiceAccountName
     (PodTemplateSpec_Spec
        (DeploymentSpec_Template
           (Deployment_Spec (fst (GetDeployment AzureOpenAI config))))) =
     ObjectMeta_Name (ServiceAccount_ObjectMeta sa) /\
   ObjectMeta_Namespace
     (Deployment_ObjectMeta (fst (GetDeployment AzureOpenAI config))) =
     ObjectMeta_Namespace (ServiceAccount_ObjectMeta sa)).
Proof.
  cbv zeta. split; [reflexivity|]. split; [reflexivity|]. split; [reflexivity|].
  intros Hok. split.
  - revert Hok. break_config config. unfold GetDeployment.
    cbn [K8sGPT_Spec K8sGPTSpec_AI K8sGPTSpec_RemoteCache AISpec_Backend
         AISpec_BaseUrl AISpec_Model AISpec_Engine AISpec_Secret].
    destruct (engine =? ""); destruct (backend =? AzureOpenAI);
      cbn [negb andb fst snd]; intros Hok; try discriminate Hok; clear Hok;
      destruct secret; break_remoteCache; destruct (baseUrl =? "");
      reflexivity.
  - rewrite (GetDeployment_ObjectMeta AzureOpenAI config Hok). reflexivity.
Qed.

End BuilderLayout.

(** X7.  When [GetDeployment] returns no error, the five objects are keyed
    as follows: the Service, the ServiceAccount and the Deployment in the
    configuration's namespace, the ClusterRole and the ClusterRoleBinding
    with no namespace; all are named k8sgpt but the Deployment, named
    k8sgpt-deployment.  The keys of the two cluster-scoped objects do not
    depend on the configuration. *)
Theorem builtObjects_keys (AzureOpenAI : string) (config : K8sGPT) :
  snd (GetDeployment AzureOpenAI config) = None ->
  map ObjectKeyFromObject (builtObjects AzureOpenAI config) =
  [ {| NamespacedName_Namespace := K8sGPT_Namespace config;
       NamespacedName_Name := "k8sgpt" |};
    {| NamespacedName_Namespace := K8sGPT_Namespace config;
       NamespacedName_Name := "k8sgpt" |};
    {| NamespacedName_Namespace := ""; NamespacedName_Name := "k8sgpt" |};
    {| NamespacedName_Namespace := ""; NamespacedName_Name := "k8sgpt" |};
    {| NamespacedName_Namespace := K8sGPT_Namespace config;
       NamespacedName_Name := "k8sgpt-deployment" |} ].
Proof.
  intros Hok. unfold builtObjects, ObjectKeyFromObject.
  cbn [map Object_kind Object_value GetObjectMeta].
  rewrite (GetDeployment_ObjectMeta AzureOpenAI config Hok). reflexivity.
Qed.

(** ** More on running a pass *)

Section PassFacts.

Variable W : Type.
Variable h : Handler W.
Variable ctx : Context.
Variable config : K8sGPT.

Lemma run_OnError_calls (k : Kind) (obj : KindType k) (f : option (MutateFn k))
  (steps : nat) :
  forall (lastErr : option error) (w w1 : W) (res : option error)
         (tr : list Entry),
    run h (OnError steps IsConflict (trigger (CreateOrPatch ctx k obj f)) lastErr) w
    = (res, w1, tr) ->
    Forall (applyCall ctx k) tr /\ length tr <= steps.
Proof.
  induction steps as [|steps IH]; intros lastErr w w1 res tr; cbn.
  - intros [= _ _ <-]. split; [constructor|apply le_n].
  - destruct (h _ (CreateOrPatch ctx k obj f) w) as [[e|] wa]; cbn.
    + destruct (IsConflict e).
      * destruct (run h (OnError steps IsConflict
                           (trigger (CreateOrPatch ctx k obj f)) (Some e)) wa)
          as [[r wb] tb] eqn:Hrec.
        intros [= _ _ <-]. destruct (IH _ _ _ _ _ Hrec) as [H1 H2].
        split; [constructor; [split; reflexivity|exact H1]|cbn; lia].
      * cbn. intros [= _ _ <-].
        split; [constructor; [split; reflexivity|constructor]|cbn; lia].
    + intros [= _ _ <-].
      split; [constructor; [split; reflexivity|constructor]|cbn; lia].
Qed.

Lemma syncCall_incl (objs objs' : list Object) (en : Entry) :
  incl objs objs' -> syncCall ctx config objs en -> syncCall ctx config objs' en.
Proof.
  intros Hincl. unfold syncCall. destruct (Entry_event en) as [c k key|c o|c k o f].
  - intros [H|(Hc & Hk & obj & Hin & Ho)]; [left; exact H|right].
    split; [exact Hc|]. split; [exact Hk|]. exists obj.
    split; [apply Hincl; exact Hin|exact Ho].
  - exact (fun H => H).
  - intros (Hc & obj & Hin & Ho). split; [exact Hc|]. exists obj.
    split; [apply Hincl; exact Hin|exact Ho].
Qed.

(** The calls of [doSync] on one object, and how many there can be. *)
Lemma run_doSync_calls (obj : Object) (w w1 : W) (res : option error)
  (tr : list Entry) :
  run h (doSync ctx obj) w = (res, w1, tr) ->
  Forall (syncCall ctx config [obj]) tr /\
  S (length tr) <= callBudget obj.
Proof.
  destruct obj as [k v]. unfold doSync, callBudget.
  cbn [Object_kind Object_value]. rewrite run_bind.
  assert (Hswitch :
            let '(_, _, t1) := run h (doSync_switch k v) w in
            Forall (syncCall ctx config [mkObject k v]) t1 /\
            length t1 <= match k with KService | KDeployment => 1 | _ => 0 end).
  { destruct k; cbn; try (split; [constructor|apply le_n]);
      (match goal with
       | |- context [h ?X ?e ?w0] => destruct (h X e w0) as [[err|ex] wa]
       end;
       [destruct (IsNotFound err)|]; cbn;
       (split; [|apply le_n]);
       (constructor; [|constructor]);
       right; (split; [reflexivity|]); (split; [auto|]);
       eexists; (split; [left; reflexivity|]); split; reflexivity). }
  destruct (run h (doSync_switch k v) w) as [[r wa] t1].
  destruct Hswitch as [Hs1 Hs2]. destruct r as [err|t].
  - cbn. intros [= _ _ <-]. rewrite app_nil_r.
    split; [exact Hs1|]. cbn. lia.
  - unfold RetryOnConflict.
    destruct (run h (OnError (Backoff_Steps DefaultRetry) IsConflict
                       (trigger (CreateOrPatch ctx k (Target_obj t)
                                   (Target_mutateFn t))) None) wa)
      as [[r2 wb] t2] eqn:Hr.
    destruct (run_OnError_calls k _ _ _ _ _ _ _ _ Hr) as [Hc1 Hc2].
    intros [= _ _ <-]. split.
    + apply Forall_app. split; [exact Hs1|].
      eapply Forall_impl; [|exact Hc1].
      intros en. unfold applyCall, syncCall.
      destruct (Entry_event en) as [c k' key|c o|c k' o f];
        [intros []|intros []|].
      intros [Hc Hk]. split; [exact Hc|].
      exists (mkObject k v). split; [left; reflexivity|symmetry; exact Hk].
    + rewrite length_app. cbn in Hc2 |- *. lia.
Qed.

Lemma run_Sync_checkSecret_calls (objs : list Object) (w w1 : W)
  (r : option error) (ts : list Entry) :
  run h (Sync_checkSecret ctx config) w = (r, w1, ts) ->
  Forall (syncCall ctx config objs) ts /\ length ts <= 1.
Proof.
  unfold Sync_checkSecret.
  destruct (AISpec_Secret (K8sGPTSpec_AI (K8sGPT_Spec config))) as [s|] eqn:Hs; cbn.
  - match goal with
    | |- context [h ?X ?e ?w0] => destruct (h X e w0) as [[e1|sec] wa]
    end; cbn; intros [= _ _ <-];
      (split; [|apply le_n]); (constructor; [|constructor]);
      left; (split; [reflexivity|]); (split; [reflexivity|]);
      exists s; split; [exact Hs|reflexivity|exact Hs|reflexivity].
  - intros [= _ _ <-]. split; [constructor|cbn; lia].
Qed.

(** The calls of one turn of the synchronize loop. *)
Lemma run_Sync_body_sync_calls (obj : Object) (rest : list Object) (w wb : W)
  (rb : option error) (tb : list Entry) :
  run h (Sync_body ctx config SyncOp obj) w = (rb, wb, tb) ->
  Forall (syncCall ctx config (obj :: rest)) tb /\
  length tb <= callBudget obj.
Proof.
  cbn [Sync_body]. rewrite run_bind.
  destruct (run h (Sync_checkSecret ctx config) w) as [[rs ws] ts] eqn:Hs.
  destruct (run_Sync_checkSecret_calls (obj :: rest) _ _ _ _ Hs) as [Hs1 Hs2].
  destruct rs as [er|].
  - cbn -[callBudget]. intros [= _ _ <-]. rewrite app_nil_r.
    split; [exact Hs1|]. unfold callBudget. lia.
  - rewrite run_bind.
    destruct (run h (doSync ctx obj) ws) as [[err wd] td] eqn:Hd.
    destruct (run_doSync_calls obj _ _ _ _ Hd) as [Hd1 Hd2].
    assert (Hd1' : Forall (syncCall ctx config (obj :: rest)) td).
    { eapply Forall_impl; [|exact Hd1]. intros en. apply syncCall_incl.
      intros o [<-|[]]. left. reflexivity. }
    destruct err as [e|]; [destruct (IsAlreadyExists e)|]; cbn -[callBudget];
      intros [= _ _ <-]; rewrite app_nil_r;
      (split; [apply Forall_app; split; assumption|]);
      rewrite length_app; lia.
Qed.

(** The calls of a synchronize loop over [objs], and how many there can
    be. *)
Lemma run_Sync_loop_sync_calls (objs : list Object) :
  forall (w w1 : W) (res : option error) (tr : list Entry),
    run h (Sync_loop ctx config SyncOp objs) w = (res, w1, tr) ->
    Forall (syncCall ctx config objs) tr /\
    length tr <= list_sum (map callBudget objs).
Proof.
  induction objs as [|obj rest IH]; intros w w1 res tr.
  - cbn. intros [= _ _ <-]. split; [constructor|apply le_n].
  - rewrite run_Sync_loop_cons.
    destruct (run h (Sync_body ctx config SyncOp obj) w) as [[b w2] t2] eqn:Hb.
    destruct (run_Sync_body_sync_calls obj rest _ _ _ _ Hb) as [Hb1 Hb2].
    destruct b as [e|].
    + intros [= _ _ <-]. split; [exact Hb1|]. change (list_sum (map callBudget (obj :: rest)))
          with (callBudget obj + list_sum (map callBudget rest)). lia.
    + destruct (run h (Sync_loop ctx config SyncOp rest) w2) as [[r2 w3] t3] eqn:Hr.
      destruct (IH _ _ _ _ Hr) as [Hr1 Hr2].
      intros [= _ _ <-]. split.
      * apply Forall_app. split; [exact Hb1|].
        eapply Forall_impl; [|exact Hr1]. intros en. apply syncCall_incl.
        intros o Ho. right. exact Ho.
      * rewrite length_app. change (list_sum (map callBudget (obj :: rest)))
          with (callBudget obj + list_sum (map callBudget rest)). lia.
Qed.

(** A destroy loop deletes a prefix of [objs], in order, with the caller's
    context, and nothing else; it returns no error only after the last
    object. *)
Lemma run_Sync_loop_destroy_calls (objs : list Object) :
  forall (w w1 : W) (res : option error) (tr : list Entry),
    run h (Sync_loop ctx config DestroyOp objs) w = (res, w1, tr) ->
    exists done rest,
      objs = done ++ rest /\
      map deleteTarget tr = map (fun obj => Some (ctx, obj)) done /\
      (res = None -> rest = []).
Proof.
  induction objs as [|obj objs IH]; intros w w1 res tr.
  - cbn. intros [= <- _ <-]. exists [], []. repeat split.
  - rewrite run_Sync_loop_cons. cbn [Sync_body run bind trigger].
    destruct (h _ (Delete ctx obj) w) as [err wa]. cbn.
    assert (Hgo :
              (let '(r2, w2, t2) := run h (Sync_loop ctx config DestroyOp objs) wa in
               (r2, w2, mkEntry (Delete ctx obj) err :: t2)) = (res, w1, tr) ->
              exists done rest,
                obj :: objs = done ++ rest /\
                map deleteTarget tr = map (fun obj => Some (ctx, obj)) done /\
                (res = None -> rest = [])).
    { destruct (run h (Sync_loop ctx config DestroyOp objs) wa)
        as [[r2 w2] t2] eqn:Hr.
      destruct (IH _ _ _ _ Hr) as (done & rest & -> & Hmap & Hnone).
      intros [= <- _ <-]. exists (obj :: done), rest.
      split; [reflexivity|]. split; [cbn; rewrite Hmap; reflexivity|exact Hnone]. }
    destruct err as [e|]; [destruct (IsNotFound e)|]; cbn; try exact Hgo.
    intros [= <- _ <-]. exists [obj], objs.
    split; [reflexivity|]. split; [reflexivity|discriminate].
Qed.

(** Destroy on a cluster whose [Delete] answers nil or not-found. *)
Lemma run_Sync_loop_destroy_absent (objs : list Object) :
  (forall (obj : Object) (w : W),
     match fst (h _ (Delete ctx obj) w) with
     | None => True
     | Some e => IsNotFound e = true
     end) ->
  forall w : W,
    exists (w1 : W) (tr : list Entry),
      run h (Sync_loop ctx config DestroyOp objs) w = (None, w1, tr) /\
      map deleteTarget tr = map (fun obj => Some (ctx, obj)) objs.
Proof.
  intros Hdel. induction objs as [|obj rest IH]; intros w.
  - exists w, []. split; reflexivity.
  - rewrite run_Sync_loop_cons.
    destruct (h _ (Delete ctx obj) w) as [err wa] eqn:Hd.
    rewrite (run_Sync_body_destroy W h ctx config obj w wa err Hd).
    pose proof (Hdel obj w) as Hx. rewrite Hd in Hx. cbn in Hx.
    destruct (IH wa) as (w1 & tr & Hr & Hm).
    destruct err as [e|]; [rewrite Hx|]; rewrite Hr;
      (eexists _, _; split; [reflexivity|cbn; rewrite Hm; reflexivity]).
Qed.

Section Healthy.

(** A cluster that answers every read with the object or with not-found
    (the latter never for a secret) and accepts every write. *)
Hypothesis Hget :
  forall (c : Context) (k : Kind) (key : NamespacedName) (w : W),
    match fst (h _ (Get c k key) w) with
    | inr _ => True
    | inl e => IsNotFound e = true /\ k <> KSecret
    end.

Hypothesis Happly :
  forall (c : Context) (k : Kind) (obj : KindType k) (f : option (MutateFn k))
         (w : W),
    fst (h _ (CreateOrPatch c k obj f) w) = None.

Lemma run_doSync_switch_healthy (k : Kind) (v : KindType k) (w : W) :
  exists (t : Target k) (w1 : W) (t1 : list Entry),
    run h (doSync_switch k v) w = (inr t, w1, t1) /\
    createOrPatchKinds t1 = [].
Proof.
  destruct k;
    try (eexists _, _, _; split; reflexivity);
    (unfold doSync_switch; cbn [bind trigger run];
     match goal with
     | |- context [h ?X (Get ?c ?k ?key) ?w0] =>
         generalize (Hget c k key w0);
         destruct (h X (Get c k key) w0) as [[e|ex] wa]
     end; cbn;
     [intros [-> _]; cbn|intros _];
     (eexists _, _, _; split; reflexivity)).
Qed.

Lemma run_doSync_healthy (obj : Object) (w : W) :
  exists (w1 : W) (tr : list Entry),
    run h (doSync ctx obj) w = (None, w1, tr) /\
    createOrPatchKinds tr = [Object_kind obj].
Proof.
  destruct obj as [k v]. unfold doSync. cbn [Object_kind Object_value].
  rewrite run_bind.
  destruct (run_doSync_switch_healthy k v w) as (t & wa & t1 & -> & Ht1).
  unfold RetryOnConflict. cbn [DefaultRetry Backoff_Steps OnError bind trigger run].
  generalize (Happly ctx k (Target_obj t) (Target_mutateFn t) wa).
  destruct (h _ (CreateOrPatch ctx k (Target_obj t) (Target_mutateFn t)) wa)
    as [r wb].
  cbn. intros ->. cbn. eexists _, _. split; [reflexivity|].
  clear - Ht1. induction t1 as [|en t1 IH]; [reflexivity|].
  cbn in Ht1 |- *. destruct (Entry_event en); try discriminate; auto.
Qed.

Lemma run_Sync_checkSecret_healthy (w : W) :
  exists (w1 : W) (ts : list Entry),
    run h (Sync_checkSecret ctx config) w = (None, w1, ts) /\
    createOrPatchKinds ts = [].
Proof.
  unfold Sync_checkSecret.
  destruct (AISpec_Secret (K8sGPTSpec_AI (K8sGPT_Spec config))) as [s|].
  - cbn [bind trigger run].
    match goal with
    | |- context [h ?X (Get ?c ?k ?key) ?w0] =>
        generalize (Hget c k key w0);
        destruct (h X (Get c k key) w0) as [[e|sec] wa]
    end; cbn.
    + intros [_ Hk]. exfalso. apply Hk. reflexivity.
    + intros _. eexists _, _. split; reflexivity.
  - exists w, []. split; reflexivity.
Qed.

Lemma createOrPatchKinds_app (t1 t2 : list Entry) :
  createOrPatchKinds (t1 ++ t2) = createOrPatchKinds t1 ++ createOrPatchKinds t2.
Proof.
  induction t1 as [|en t1 IH]; cbn; [reflexivity|].
  destruct (Entry_event en); rewrite IH; reflexivity.
Qed.

Lemma run_Sync_loop_healthy (objs : list Object) :
  forall w : W,
    exists (w1 : W) (tr : list Entry),
      run h (Sync_loop ctx config SyncOp objs) w = (None, w1, tr) /\
      createOrPatchKinds tr = map Object_kind objs.
Proof.
  induction objs as [|obj rest IH]; intros w.
  - exists w, []. split; reflexivity.
  - rewrite run_Sync_loop_cons.
    destruct (run_Sync_checkSecret_healthy w) as (ws & ts & Hs & Hts).
    destruct (run_doSync_healthy obj ws) as (wd & td & Hd & Htd).
    rewrite (run_Sync_body_sync W h ctx config obj w ws wd ts td None Hs Hd).
    destruct (IH wd) as (w1 & tr & Hr & Htr). rewrite Hr.
    eexists _, _. split; [reflexivity|].
    rewrite !createOrPatchKinds_app, Hts, Htd, Htr. reflexivity.
Qed.

End Healthy.

End PassFacts.

(** ** More on the orchestrator *)


(** X9.  In destroy mode, on a cluster whose [Delete] answers nil or
    not-found for every object, [Sync] deletes the five built objects in
    order and returns no error. *)
Theorem Sync_destroy_absent_ok (W : Type) (h : Handler W) (AzureOpenAI : string)
  (ctx : Context) (config : K8sGPT) (w : W) :
  (forall (obj : Object) (w0 : W),
     match fst (h _ (Delete ctx obj) w0) with
     | None => True
     | Some e => IsNotFound e = true
     end) ->
  snd (GetDeployment AzureOpenAI config) = None ->
  exists (w1 : W) (tr : list Entry),
    run h (Sync AzureOpenAI ctx config DestroyOp) w = (None, w1, tr) /\
    map deleteTarget tr =
    map (fun obj => Some (ctx, obj)) (builtObjects AzureOpenAI config).
Proof.
  intros Hdel Hok. rewrite Sync_eq, Hok.
  exact (run_Sync_loop_destroy_absent W h ctx config
           (builtObjects AzureOpenAI config) Hdel w).
Qed.

(** X10.  In synchronize mode every call of [Sync] is one of: the read of
    the referenced secret, by its name in the configuration's namespace
    and with the caller's context (only when a secret is referenced); the
    read of the built Service or Deployment by its key, with the
    background context; a [CreateOrPatch] of one of the built objects with
    the caller's context.  It never deletes. *)
Theorem Sync_sync_calls (W : Type) (h : Handler W) (AzureOpenAI : string)
  (ctx : Context) (config : K8sGPT) (w w1 : W) (res : option error)
  (tr : list Entry) :
  run h (Sync AzureOpenAI ctx config SyncOp) w = (res, w1, tr) ->
  Forall (syncCall ctx config (builtObjects AzureOpenAI config)) tr.
Proof.
  rewrite Sync_eq.
  destruct (snd (GetDeployment AzureOpenAI config)) as [er|].
  - cbn. intros [= _ _ <-]. constructor.
  - intros Hrun.
    exact (proj1 (run_Sync_loop_sync_calls W h ctx config _ _ _ _ _ Hrun)).
Qed.

(** X11.  A pass issues a bounded number of calls whatever the cluster
    answers: at most 32 in synchronize mode (five secret reads, two reads
    of existing objects and five times five write attempts) and at most 5
    in destroy mode. *)
Theorem Sync_call_bound (W : Type) (h : Handler W) (AzureOpenAI : string)
  (ctx : Context) (config : K8sGPT) (w : W) :
  length (snd (run h (Sync AzureOpenAI ctx config SyncOp) w)) <= 32 /\
  length (snd (run h (Sync AzureOpenAI ctx config DestroyOp) w)) <= 5.
Proof.
  rewrite !Sync_eq.
  destruct (snd (GetDeployment AzureOpenAI config)) as [er|].
  - cbn. split; lia.
  - split.
    + destruct (run h (Sync_loop ctx config SyncOp
                         (builtObjects AzureOpenAI config)) w)
        as [[res w1] tr] eqn:Hrun.
      exact (proj2 (run_Sync_loop_sync_calls W h ctx config _ _ _ _ _ Hrun)).
    + destruct (run h (Sync_loop ctx config DestroyOp
                         (builtObjects AzureOpenAI config)) w)
        as [[res w1] tr] eqn:Hrun.
      destruct (run_Sync_loop_destroy_calls W h ctx config _ _ _ _ _ Hrun)
        as (done & rest & Hobjs & Hmap & _).
      cbn [snd]. rewrite <- (length_map deleteTarget), Hmap, length_map.
      apply (f_equal (@length Object)) in Hobjs.
      rewrite length_app in Hobjs. cbn in Hobjs. lia.
Qed.

(** X12.  When the read of the existing Deployment or Service fails with
    an error other than not-found, [doSync] returns that error at once:
    the read is its only call and nothing is written. *)
Theorem doSync_fetch_error (W : Type) (h : Handler W) (ctx : Context)
  (e : error) (w w1 : W) :
  IsNotFound e = false ->
  (forall expect : Deployment,
     h _ (Get context_Background KDeployment
            (ObjectKeyFromObject (mkObject KDeployment expect))) w = (inl e, w1) ->
     run h (doSync ctx (mkObject KDeployment expect)) w =
     (Some e, w1,
      [mkEntry (Get context_Background KDeployment
                  (ObjectKeyFromObject (mkObject KDeployment expect))) (inl e)])) /\
  (forall expect : Service,
     h _ (Get context_Background KService
            (ObjectKeyFromObject (mkObject KService expect))) w = (inl e, w1) ->
     run h (doSync ctx (mkObject KService expect)) w =
     (Some e, w1,
      [mkEntry (Get context_Background KService
                  (ObjectKeyFromObject (mkObject KService expect))) (inl e)])).
Proof.
  intros He. split; intros expect Hg; unfold doSync;
    cbn [Object_kind Object_value doSync_switch bind trigger run];
    rewrite Hg; cbn; rewrite He; reflexivity.
Qed.

(** X13.  On a cluster that answers every read with the object or with
    not-found (never not-found for the secret) and accepts every write, a
    synchronize pass of a configuration that [GetDeployment] accepts
    returns no error and writes each of the five objects exactly once, in
    the order Service, ServiceAccount, ClusterRole, ClusterRoleBinding,
    Deployment. *)
Theorem Sync_healthy_pass (W : Type) (h : Handler W) (AzureOpenAI : string)
  (ctx : Context) (config : K8sGPT) (w : W) :
  (forall (c : Context) (k : Kind) (key : NamespacedName) (w0 : W),
     match fst (h _ (Get c k key) w0) with
     | inr _ => True
     | inl e => IsNotFound e = true /\ k <> KSecret
     end) ->
  (forall (c : Context) (k : Kind) (obj : KindType k) (f : option (MutateFn k))
          (w0 : W),
     fst (h _ (CreateOrPatch c k obj f) w0) = None) ->
  snd (GetDeployment AzureOpenAI config) = None ->
  exists (w1 : W) (tr : list Entry),
    run h (Sync AzureOpenAI ctx config SyncOp) w = (None, w1, tr) /\
    createOrPatchKinds tr =
    [KService; KServiceAccount; KClusterRole; KClusterRoleBinding; KDeployment].
Proof.
  intros Hget Happly Hok. rewrite Sync_eq, Hok.
  exact (run_Sync_loop_healthy W h ctx config Hget Happly
           (builtObjects AzureOpenAI config) w).
Qed.

(** ** Where a failed pass stops *)

Section FailFast.

Variable W : Type.
Variable h : Handler W.
Variable ctx : Context.
Variable config : K8sGPT.

Lemma endsWith_cons (i : SyncOrDestroy) (e : error) (t1 t2 : list Entry) :
  endsWith i e t2 -> endsWith i e (t1 ++ t2).
Proof.
  intros (tr' & en & -> & H). exists (t1 ++ tr'), en.
  split; [apply app_assoc|exact H].
Qed.

Lemma run_OnError_last (k : Kind) (obj : KindType k) (f : option (MutateFn k))
  (steps : nat) :
  forall (lastErr : option error) (w w1 : W) (e : error) (tr : list Entry),
    run h (OnError steps IsConflict (trigger (CreateOrPatch ctx k obj f)) lastErr) w
    = (Some e, w1, tr) ->
    (tr = [] /\ lastErr = Some e) \/
    (exists tr' en, tr = tr' ++ [en] /\ entryError en = Some e).
Proof.
  induction steps as [|steps IH]; intros lastErr w w1 e tr; cbn.
  - intros [= -> _ <-]. left. split; reflexivity.
  - destruct (h _ (CreateOrPatch ctx k obj f) w) as [[e0|] wa]; cbn.
    + destruct (IsConflict e0).
      * destruct (run h (OnError steps IsConflict
                           (trigger (CreateOrPatch ctx k obj f)) (Some e0)) wa)
          as [[r wb] tb] eqn:Hrec.
        intros [= -> _ <-]. right.
        destruct (IH _ _ _ _ _ Hrec) as [[-> [= ->]]|(tr' & en & -> & Hen)].
        -- exists [], (mkEntry (CreateOrPatch ctx k obj f) (Some e)).
           split; reflexivity.
        -- exists (mkEntry (CreateOrPatch ctx k obj f) (Some e0) :: tr'), en.
           split; [reflexivity|exact Hen].
      * cbn. intros [= -> _ <-]. right.
        exists [], (mkEntry (CreateOrPatch ctx k obj f) (Some e)).
        split; reflexivity.
    + discriminate.
Qed.

Lemma run_doSync_switch_error (k : Kind) (v : KindType k) (w w1 : W)
  (err : error) (t1 : list Entry) :
  run h (doSync_switch k v) w = (inl err, w1, t1) ->
  exists en, t1 = [en] /\ entryError en = Some err.
Proof.
  destruct k; cbn; try discriminate;
    (match goal with
     | |- context [h ?X ?ev ?w0] => destruct (h X ev w0) as [[e0|ex] wa]
     end;
     [destruct (IsNotFound e0)|]; cbn; try discriminate;
     intros [= -> _ <-]; eexists; split; reflexivity).
Qed.

Lemma run_doSync_last (obj : Object) (w w1 : W) (e : error) (tr : list Entry) :
  run h (doSync ctx obj) w = (Some e, w1, tr) ->
  exists tr' en, tr = tr' ++ [en] /\ entryError en = Some e.
Proof.
  destruct obj as [k v]. unfold doSync. cbn [Object_kind Object_value].
  rewrite run_bind.
  destruct (run h (doSync_switch k v) w) as [[r wa] t1] eqn:Hs.
  destruct r as [err|t].
  - destruct (run_doSync_switch_error k v _ _ _ _ Hs) as (en & -> & Hen).
    cbn. intros [= -> _ <-]. exists [], en. split; [reflexivity|exact Hen].
  - unfold RetryOnConflict.
    destruct (run h (OnError (Backoff_Steps DefaultRetry) IsConflict
                       (trigger (CreateOrPatch ctx k (Target_obj t)
                                   (Target_mutateFn t))) None) wa)
      as [[r2 wb] t2] eqn:Hr.
    intros [= -> _ <-].
    destruct (run_OnError_last k _ _ _ _ _ _ _ _ Hr)
      as [[_ Hnone]|(tr' & en & -> & Hen)]; [discriminate Hnone|].
    exists (t1 ++ tr'), en. split; [apply app_assoc|exact Hen].
Qed.

Lemma run_Sync_body_last (i : SyncOrDestroy) (obj : Object) (w w1 : W)
  (e : error) (tb : list Entry) :
  run h (Sync_body ctx config i obj) w = (Some e, w1, tb) -> endsWith i e tb.
Proof.
  destruct i.
  - cbn [Sync_body]. rewrite run_bind.
    destruct (run h (Sync_checkSecret ctx config) w) as [[rs ws] ts] eqn:Hs.
    destruct rs as [er|].
    + cbn. intros [= -> _ <-]. rewrite app_nil_r.
      revert Hs. unfold Sync_checkSecret.
      destruct (AISpec_Secret (K8sGPTSpec_AI (K8sGPT_Spec config))) as [s|];
        cbn; [|discriminate].
      match goal with
      | |- context [h ?X ?ev ?w0] => destruct (h X ev w0) as [[e0|sec] wa]
      end; cbn; [|discriminate].
      intros [= <- _ <-]. eexists [], _. split; [reflexivity|].
      right. repeat split. discriminate.
    + rewrite run_bind.
      destruct (run h (doSync ctx obj) ws) as [[err wd] td] eqn:Hd.
      destruct err as [e1|]; [destruct (IsAlreadyExists e1)|]; cbn;
        try discriminate.
      intros [= -> _ <-]. rewrite app_nil_r. apply endsWith_cons.
      destruct (run_doSync_last obj _ _ _ _ Hd) as (tr' & en & -> & Hen).
      exists tr', en. split; [reflexivity|left; exact Hen].
  - cbn.
    match goal with
    | |- context [h ?X ?ev ?w0] => destruct (h X ev w0) as [[e0|] wa]
    end; [destruct (IsNotFound e0)|]; cbn; try discriminate.
    intros [= -> _ <-]. eexists [], _. split; [reflexivity|left; reflexivity].
Qed.

Lemma run_Sync_loop_last (i : SyncOrDestroy) (objs : list Object) :
  forall (w w1 : W) (e : error) (tr : list Entry),
    run h (Sync_loop ctx config i objs) w = (Some e, w1, tr) -> endsWith i e tr.
Proof.
  induction objs as [|obj rest IH]; intros w w1 e tr.
  - cbn. discriminate.
  - rewrite run_Sync_loop_cons.
    destruct (run h (Sync_body ctx config i obj) w) as [[[eb|] wb] tb] eqn:Hb.
    + intros [= -> _ <-]. exact (run_Sync_body_last i obj _ _ _ _ Hb).
    + destruct (run h (Sync_loop ctx config i rest) wb) as [[r wr] t3] eqn:Hr.
      intros [= -> _ <-]. apply endsWith_cons. exact (IH _ _ _ _ Hr).
Qed.

End FailFast.

(** X14.  A pass that returns an error stops at the failing call: either
    it issued no call at all and the error is the validation error of
    [GetDeployment], or the last call of the pass is the one that failed,
    and the error returned is the one that call was answered with, except
    that a failed read of the secret is returned as the fixed message. *)
Theorem Sync_stops_at_failure (W : Type) (h : Handler W) (AzureOpenAI : string)
  (ctx : Context) (config : K8sGPT) (i : SyncOrDestroy) (w w1 : W) (e : error)
  (tr : list Entry) :
  run h (Sync AzureOpenAI ctx config i) w = (Some e, w1, tr) ->
  (tr = [] /\ snd (GetDeployment AzureOpenAI config) = Some e) \/
  endsWith i e tr.
Proof.
  rewrite Sync_eq.
  destruct (snd (GetDeployment AzureOpenAI config)) as [er|].
  - cbn. intros [= -> _ <-]. left. split; reflexivity.
  - intros Hrun. right.
    exact (run_Sync_loop_last W h ctx config i _ _ _ _ _ Hrun).
Qed.

(** ** The further properties at concrete configurations and clusters *)

Lemma GetDeployment_env_layout_witness :
  snd (GetDeployment azureopenai richConfig) = None /\
  Deployment_Env (fst (GetDeployment azureopenai richConfig)) =
  fixedEnv richConfig
  ++ [passwordVar exampleSecret]
  ++ awsCredentials (exampleRemoteCache (Some mkS3Backend) None)
  ++ []
  ++ [ {| EnvVar_Name := "K8SGPT_ENGINE"; EnvVar_Value := "gpt-35-turbo";
          EnvVar_ValueFrom := None |} ].
Proof.
  split; [reflexivity|].
  exact (GetDeployment_env_layout azureopenai richConfig eq_refl).
Defined.

Lemma GetDeployment_env_NoDup_witness :
  snd (GetDeployment azureopenai richConfig) = None /\
  NoDup (map EnvVar_Name
           (Deployment_Env (fst (GetDeployment azureopenai richConfig)))).
Proof.
  split; [reflexivity|].
  exact (GetDeployment_env_NoDup azureopenai richConfig eq_refl).
Defined.

Lemma GetDeployment_container_witness :
  snd (GetDeployment azureopenai richConfig) = None /\
  exists c : Container,
    Deployment_Containers (fst (GetDeployment azureopenai richConfig)) = [c] /\
    Container_Name c = "k8sgpt" /\
    Container_Image c = "ghcr.io/k8sgpt-ai/k8sgpt:v0.3.8" /\
    Container_Args c = ["serve"] /\
    Container_ImagePullPolicy c = Some PullAlways /\
    Container_Ports c = [ {| ContainerPort_ContainerPort := 8080 |} ] /\
    DeploymentSpec_Replicas
      (Deployment_Spec (fst (GetDeployment azureopenai richConfig))) = Some 1%Z /\
    PodSpec_ServiceAccountName
      (PodTemplateSpec_Spec
         (DeploymentSpec_Template
            (Deployment_Spec (fst (GetDeployment azureopenai richConfig)))))
    = "k8sgpt".
Proof.
  split; [reflexivity|].
  exact (GetDeployment_container azureopenai richConfig eq_refl).
Defined.

Lemma GetDeployment_fails_iff_witness :
  snd (GetDeployment azureopenai engineOnOpenAI) <> None /\
  GetDeployment azureopenai engineOnOpenAI =
  (Deployment_zero,
   Some (errorString "Engine is supported only by azureopenai provider.")).
Proof.
  split; [discriminate|].
  apply (proj2 (GetDeployment_fails_iff azureopenai engineOnOpenAI)).
  discriminate.
Defined.

Lemma Service_selects_Deployment_witness :
  snd (GetDeployment azureopenai richConfig) = None /\
  DeploymentSpec_Selector
    (Deployment_Spec (fst (GetDeployment azureopenai richConfig))) =
    Some {| LabelSelector_MatchLabels :=
              ServiceSpec_Selector (Service_Spec (fst (GetService richConfig))) |}.
Proof.
  split; [reflexivity|].
  exact (proj1 (Service_selects_Deployment azureopenai richConfig eq_refl)).
Defined.

Lemma rbac_wiring_witness :
  snd (GetDeployment azureopenai richConfig) = None /\
  PodSpec_ServiceAccountName
    (PodTemplateSpec_Spec
       (DeploymentSpec_Template
          (Deployment_Spec (fst (GetDeployment azureopenai richConfig))))) =
    ObjectMeta_Name (ServiceAccount_ObjectMeta (fst (GetServiceAccount richConfig))).
Proof.
  split; [reflexivity|].
  exact (proj1 (proj2 (proj2 (proj2 (rbac_wiring azureopenai richConfig)))
                  eq_refl)).
Defined.

Lemma builtObjects_keys_witness :
  snd (GetDeployment azureopenai richConfig) = None /\
  map ObjectKeyFromObject (builtObjects azureopenai richConfig) =
  [ {| NamespacedName_Namespace := "default"; NamespacedName_Name := "k8sgpt" |};
    {| NamespacedName_Namespace := "default"; NamespacedName_Name := "k8sgpt" |};
    {| NamespacedName_Namespace := ""; NamespacedName_Name := "k8sgpt" |};
    {| NamespacedName_Namespace := ""; NamespacedName_Name := "k8sgpt" |};
    {| NamespacedName_Namespace := "default";
       NamespacedName_Name := "k8sgpt-deployment" |} ].
Proof.
  split; [reflexivity|].
  exact (builtObjects_keys azureopenai richConfig eq_refl).
Defined.


Lemma Sync_destroy_absent_ok_witness :
  (forall (obj : Object) (w0 : nat),
     match fst (@emptyCluster _ (Delete callerCtx obj) w0) with
     | None => True
     | Some e => IsNotFound e = true
     end) /\
  snd (GetDeployment azureopenai plainConfig) = None /\
  exists (w1 : nat) (tr : list Entry),
    run emptyCluster (Sync azureopenai callerCtx plainConfig DestroyOp) 0
    = (None, w1, tr) /\
    map deleteTarget tr =
    map (fun obj => Some (callerCtx, obj)) (builtObjects azureopenai plainConfig).
Proof.
  split; [intros obj w0; reflexivity|]. split; [reflexivity|].
  exact (Sync_destroy_absent_ok nat emptyCluster azureopenai callerCtx plainConfig 0
           (fun obj w0 => eq_refl) eq_refl).
Defined.

Lemma Sync_sync_calls_witness :
  run fullCluster (Sync azureopenai callerCtx secretConfig SyncOp) 0 =
  (None, 12,
   snd (run fullCluster (Sync azureopenai callerCtx secretConfig SyncOp) 0)) /\
  Forall (syncCall callerCtx secretConfig (builtObjects azureopenai secretConfig))
    (snd (run fullCluster (Sync azureopenai callerCtx secretConfig SyncOp) 0)).
Proof.
  split; [reflexivity|].
  exact (Sync_sync_calls nat fullCluster azureopenai callerCtx secretConfig
           0 12 None _ eq_refl).
Defined.

Lemma doSync_fetch_error_witness :
  IsNotFound forbidden = false /\
  @unreadableCluster _
    (Get context_Background KDeployment
       (ObjectKeyFromObject (mkObject KDeployment plainDeployment))) 0
  = (inl forbidden, 1) /\
  run unreadableCluster (doSync callerCtx (mkObject KDeployment plainDeployment)) 0 =
  (Some forbidden, 1,
   [mkEntry (Get context_Background KDeployment
               (ObjectKeyFromObject (mkObject KDeployment plainDeployment)))
            (inl forbidden)]).
Proof.
  split; [reflexivity|]. split; [reflexivity|].
  exact (proj1 (doSync_fetch_error nat unreadableCluster callerCtx forbidden 0 1
                  eq_refl) plainDeployment eq_refl).
Defined.

Lemma Sync_healthy_pass_witness :
  (forall (c : Context) (k : Kind) (key : NamespacedName) (w0 : nat),
     match fst (@fullCluster _ (Get c k key) w0) with
     | inr _ => True
     | inl e => IsNotFound e = true /\ k <> KSecret
     end) /\
  (forall (c : Context) (k : Kind) (obj : KindType k) (f : option (MutateFn k))
          (w0 : nat),
     fst (@fullCluster _ (CreateOrPatch c k obj f) w0) = None) /\
  snd (GetDeployment azureopenai secretConfig) = None /\
  exists (w1 : nat) (tr : list Entry),
    run fullCluster (Sync azureopenai callerCtx secretConfig SyncOp) 0
    = (None, w1, tr) /\
    createOrPatchKinds tr =
    [KService; KServiceAccount; KClusterRole; KClusterRoleBinding; KDeployment].
Proof.
  split; [intros c k key w0; exact I|].
  split; [intros c k obj f w0; reflexivity|].
  split; [reflexivity|].
  exact (Sync_healthy_pass nat fullCluster azureopenai callerCtx secretConfig 0
           (fun c k key w0 => I) (fun c k obj f w0 => eq_refl) eq_refl).
Defined.

Lemma Sync_stops_at_failure_witness :
  run forbiddenCluster (Sync azureopenai callerCtx plainConfig SyncOp) 0 =
  (Some forbidden, 2,
   snd (run forbiddenCluster (Sync azureopenai callerCtx plainConfig SyncOp) 0)) /\
  ((snd (run forbiddenCluster (Sync azureopenai callerCtx plainConfig SyncOp) 0) = []
    /\ snd (GetDeployment azureopenai plainConfig) = Some forbidden) \/
   endsWith SyncOp forbidden
     (snd (run forbiddenCluster (Sync azureopenai callerCtx plainConfig SyncOp) 0))).
Proof.
  split; [reflexivity|].
  exact (Sync_stops_at_failure nat forbiddenCluster azureopenai callerCtx
           plainConfig SyncOp 0 2 forbidden _ eq_refl).
Defined.
